(** * Trade producer: Kraken websocket feed to Kafka

    A shallow embedding of [services/trade_producer/src/kraken_websocket_api.py]
    and [services/trade_producer/src/main.py], and the properties of the
    trade-ingestion pipeline proved about it.

    Layout:
    - [Py]: the fragment of Python the two files rely on (exceptions, values
      decoded from JSON, [in] on strings, slices, binary64 floats);
    - [Datetime]: the part of the [datetime] module behind [to_ms];
    - [Runtime]: what the libraries supply (json, datetime.fromisoformat,
      pydantic's field validation, the Kafka serializers), as an interface;
    - [Kraken]: [Trade] and [KrakenWebsocketAPI];
    - [Main]: the body of [produce_trades];
    - [Reference]: an executable instance of [Runtime], used to run the
      model on concrete frames, and [Examples]: sample traffic;
    - [Spec]: the vocabulary the properties are stated in;
    - the properties, and their instances on the sample traffic.

    A [string] stands for a Python [str] whose characters are code points
    below 256; the frames of the venue are ASCII. *)

From Stdlib Require Import ZArith List String Ascii Bool Lia.
From Stdlib Require Import SpecFloat.
Import ListNotations.

Local Open Scope string_scope.
Local Open Scope Z_scope.

Set Warnings "-register-all".

(* ===================================================================== *)
(** * Python values and primitives *)
(* ===================================================================== *)

Module Py.

(** Exceptions that can leave the two source files.  The first one is the
    transport's; the others are raised while a frame is being decoded. *)
Inductive exn : Type :=
| WebSocketConnectionClosedException
| JSONDecodeError
| KeyError (key : string)
| TypeError
| ValueError
| OverflowError
| ValidationError.

(** A computation that either raises or returns. *)
Definition result (A : Type) : Type := (exn + A)%type.

Definition ok {A} (a : A) : result A := inr a.
Definition raise {A} (e : exn) : result A := inl e.

Definition rbind {A B} (r : result A) (k : A -> result B) : result B :=
  match r with
  | inl e => inl e
  | inr a => k a
  end.

(** [float] is IEEE 754 binary64: 53 bits of precision, exponents below
    1024.  Operations round to nearest, ties to even. *)
Definition float : Type := spec_float.
Definition prec : Z := 53.
Definition emax : Z := 1024.

(** What [json.loads] can return.  A dict keeps its insertion order; the
    keys of a decoded JSON object are strings. *)
Inductive pyval : Type :=
| PNone
| PBool (b : bool)
| PInt (z : Z)
| PFloat (f : float)
| PStr (s : string)
| PList (l : list pyval)
| PDict (d : list (string * pyval)).

(** [d[key]] on a dict: the value bound to the first occurrence of the key. *)
Fixpoint dict_get (d : list (string * pyval)) (key : string) : option pyval :=
  match d with
  | [] => None
  | (k, v) :: d' => if String.eqb k key then Some v else dict_get d' key
  end.

(** [v[key]] with a string key: only a dict accepts it. *)
Definition subscript (v : pyval) (key : string) : result pyval :=
  match v with
  | PDict d =>
      match dict_get d key with
      | Some x => ok x
      | None => raise (KeyError key)
      end
  | _ => raise TypeError
  end.

(** The characters of a string, each as a one-character string. *)
Fixpoint chars (s : string) : list pyval :=
  match s with
  | EmptyString => []
  | String c s' => PStr (String c EmptyString) :: chars s'
  end.

(** [for x in v]: a list yields its elements, a dict its keys, a string its
    characters; nothing else is iterable. *)
Definition iterate (v : pyval) : result (list pyval) :=
  match v with
  | PList l => ok l
  | PDict d => ok (map (fun kv => PStr (fst kv)) d)
  | PStr s => ok (chars s)
  | _ => raise TypeError
  end.

(** [needle in hay] on strings: [needle] occurs as a contiguous run. *)
Fixpoint contains (needle hay : string) : bool :=
  prefix needle hay ||
  match hay with
  | EmptyString => false
  | String _ hay' => contains needle hay'
  end.

(** [s[:stop]]: a negative bound counts from the end, and the bound is
    clamped to the string. *)
Definition slice_to (s : string) (stop : Z) : string :=
  let n := Z.of_nat (String.length s) in
  let stop' := if stop <? 0 then Z.max (stop + n) 0 else Z.min stop n in
  substring 0 (Z.to_nat stop') s.

(** An integer as an exact (unrounded) mantissa with exponent 0. *)
Definition exact (z : Z) : float :=
  match z with
  | Z0 => S754_zero false
  | Zpos p => S754_finite false p 0
  | Zneg p => S754_finite true p 0
  end.

(** [a / b] on two ints: the quotient, rounded once to binary64. *)
Definition int_truediv (a b : Z) : float := SFdiv prec emax (exact a) (exact b).

(** [float(z)]. *)
Definition float_of_int (z : Z) : float := binary_normalize prec emax z 0 false.

(** [x * y] on floats. *)
Definition float_mul (x y : float) : float := SFmul prec emax x y.

(** [int(x)]: truncation toward zero; infinities and NaN raise. *)
Definition int_of_float (x : float) : result Z :=
  match x with
  | S754_zero _ => ok 0
  | S754_finite s m e => ok (cond_Zopp s (Z.shiftl (Zpos m) e))
  | S754_infinity _ => raise OverflowError
  | S754_nan => raise ValueError
  end.

End Py.

Export Py.

Declare Scope result_scope.
Delimit Scope result_scope with result.
Notation "x <- r ;; k" := (rbind r (fun x => k))
  (at level 61, r at next level, right associativity) : result_scope.

(* ===================================================================== *)
(** * The datetime module *)
(* ===================================================================== *)

Module Datetime.

(** [tzinfo] is [None] for a naive value and otherwise a fixed offset from
    UTC, held in microseconds. *)
Record datetime : Type := mk_datetime {
  year : Z;
  month : Z;
  day : Z;
  hour : Z;
  minute : Z;
  second : Z;
  microsecond : Z;
  tzinfo : option Z
}.

(** [timezone.utc]. *)
Definition utc : Z := 0.

(** [dt.replace(tzinfo=tz)]: the wall-clock fields are kept as they are. *)
Definition replace_tzinfo (dt : datetime) (tz : option Z) : datetime :=
  mk_datetime (year dt) (month dt) (day dt) (hour dt) (minute dt) (second dt)
              (microsecond dt) tz.

Definition is_leap (y : Z) : bool :=
  (y mod 4 =? 0) && (negb (y mod 100 =? 0) || (y mod 400 =? 0)).

(** Days before January 1st of year [y], from 0001-01-01. *)
Definition days_before_year (y : Z) : Z :=
  let y' := y - 1 in
  y' * 365 + y' / 4 - y' / 100 + y' / 400.

(** Days in year [y] before the first day of month [m]. *)
Definition days_before_month (y m : Z) : Z :=
  nth (Z.to_nat m) [0; 0; 31; 59; 90; 120; 151; 181; 212; 243; 273; 304; 334] 0
  + (if (2 <? m) && is_leap y then 1 else 0).

Definition days_in_month (y m : Z) : Z :=
  if (m =? 2) && is_leap y then 29
  else nth (Z.to_nat m) [0; 31; 28; 31; 30; 31; 30; 31; 31; 30; 31; 30; 31] 0.

(** The ranges the [datetime] constructor checks; it raises [ValueError]
    outside them, so every value there is satisfies them. *)
Definition valid (dt : datetime) : bool :=
  (1 <=? year dt) && (year dt <=? 9999)
  && (1 <=? month dt) && (month dt <=? 12)
  && (1 <=? day dt) && (day dt <=? days_in_month (year dt) (month dt))
  && (0 <=? hour dt) && (hour dt <=? 23)
  && (0 <=? minute dt) && (minute dt <=? 59)
  && (0 <=? second dt) && (second dt <=? 59)
  && (0 <=? microsecond dt) && (microsecond dt <=? 999999).

(** [date.toordinal()]: 0001-01-01 is day 1. *)
Definition toordinal (dt : datetime) : Z :=
  days_before_year (year dt) + days_before_month (year dt) (month dt) + day dt.

(** A [timedelta], normalised as the constructor leaves it:
    [0 <= seconds < 86400] and [0 <= microseconds < 10**6]. *)
Record timedelta : Type := mk_timedelta {
  days : Z;
  seconds : Z;
  microseconds : Z
}.

Definition new_timedelta (d s us : Z) : timedelta :=
  let s1 := s + us / 1000000 in
  mk_timedelta (d + s1 / 86400) (s1 mod 86400) (us mod 1000000).

Definition to_microseconds (td : timedelta) : Z :=
  (days td * 86400 + seconds td) * 1000000 + microseconds td.

(** [td.total_seconds()]. *)
Definition total_seconds (td : timedelta) : float :=
  int_truediv (to_microseconds td) 1000000.

(** 1970-01-01T00:00:00+00:00. *)
Definition EPOCH : datetime := mk_datetime 1970 1 1 0 0 0 0 (Some utc).

(** [a - b] on two aware values with offsets [offa] and [offb]. *)
Definition sub_aware (a b : datetime) (offa offb : Z) : timedelta :=
  let secs x := second x + minute x * 60 + hour x * 3600 in
  new_timedelta (toordinal a - toordinal b) (secs a - secs b)
                (microsecond a - microsecond b + offb - offa).

(** [dt.timestamp()].  An aware value gives [(dt - EPOCH).total_seconds()].
    A naive one is read in the local zone of the machine, which is left
    out here: [to_ms] never asks for it. *)
Definition timestamp (dt : datetime) : option float :=
  match tzinfo dt with
  | Some off => Some (total_seconds (sub_aware dt EPOCH off utc))
  | None => None
  end.

End Datetime.

Export Datetime.

(* ===================================================================== *)
(** * What the libraries supply *)
(* ===================================================================== *)

(** The standard library's [json] and [datetime.fromisoformat], pydantic's
    validation of a [str] and of a [float] field, and the serializers of the
    Kafka topic are not part of the two source files.  They are taken as an
    interface: a decoder or validator that rejects its input returns [None],
    and the caller below raises the library's exception.  The laws: a
    [datetime] that [fromisoformat] returns went through the constructor, and
    pydantic keeps a value that already has the field's type as it is. *)
Class Runtime : Type := {
  json_loads : string -> option pyval;
  json_dumps : pyval -> string;
  fromisoformat : string -> option datetime;
  validate_str : pyval -> option string;
  validate_float : pyval -> option float;
  key_serializer : string -> string;
  value_serializer : pyval -> string;
  fromisoformat_valid : forall s dt, fromisoformat s = Some dt -> valid dt = true;
  validate_str_str : forall s, validate_str (PStr s) = Some s;
  validate_float_float : forall f, validate_float (PFloat f) = Some f
}.

(* ===================================================================== *)
(** * kraken_websocket_api.py *)
(* ===================================================================== *)

(** ** class Trade(BaseModel) *)
Module Trade.

Record t : Type := Trade {
  product_id : string;
  quantity : float;
  price : float;
  timestamp_ms : Z
}.

(** [trade.model_dump()]: the fields in declaration order. *)
Definition model_dump (trade : t) : pyval :=
  PDict [("product_id", PStr (product_id trade));
         ("quantity", PFloat (quantity trade));
         ("price", PFloat (price trade));
         ("timestamp_ms", PInt (timestamp_ms trade))].

End Trade.

Abbreviation Trade := Trade.t.

(** ** The websocket connection

    A connection holds the frames the venue has still to deliver and the
    frames sent so far, oldest first.  [recv] takes the next frame; once the
    venue has nothing more to deliver the connection is closed. *)
Module WebSocket.

Record t : Type := mk {
  url : string;
  inbound : list string;
  sent : list string
}.

(** [create_connection(url)], against a venue that will deliver [frames]. *)
Definition create_connection (address : string) (frames : list string) : t :=
  mk address frames [].

Definition recv (ws : t) : result string * t :=
  match inbound ws with
  | [] => (raise WebSocketConnectionClosedException, ws)
  | frame :: rest => (ok frame, mk (url ws) rest (sent ws))
  end.

Definition send (data : string) (ws : t) : t :=
  mk (url ws) (inbound ws) (sent ws ++ [data]).

End WebSocket.

(** ** class KrakenWebsocketAPI *)
Module KrakenWebsocketAPI.

(** The instance attributes. *)
Record t : Type := mk {
  product_id : string;
  _ws : WebSocket.t
}.

(** A method runs on [self], may change its attributes, and returns or
    raises. *)
Definition method (A : Type) : Type := t -> result A * t.

Definition ret {A} (a : A) : method A := fun self => (ok a, self).

Definition lift {A} (r : result A) : method A := fun self => (r, self).

Definition bind {A B} (m : method A) (k : A -> method B) : method B :=
  fun self =>
    match m self with
    | (inl e, self') => (inl e, self')
    | (inr a, self') => k a self'
    end.

Declare Scope method_scope.
Delimit Scope method_scope with method.
Notation "x <- m ;; k" := (bind m (fun x => k))
  (at level 61, m at next level, right associativity) : method_scope.

(** [self._ws.recv()] and [self._ws.send(data)]. *)
Definition ws_recv : method string :=
  fun self =>
    let (r, ws') := WebSocket.recv (_ws self) in
    (r, mk (product_id self) ws').

Definition ws_send (data : string) : method unit :=
  fun self => (ok tt, mk (product_id self) (WebSocket.send data (_ws self))).

Definition URL : string := "wss://ws.kraken.com/v2".

Section Methods.

Context {R : Runtime}.

(** [to_ms(timestamp)].  Only a string reaches [fromisoformat] as one: a
    list is sliced and then refused, the other values cannot be sliced (a
    dict raises [KeyError] for the slice from Python 3.12 on, [TypeError]
    before; the call raises either way).  The value whose [timestamp()] is
    taken is always aware. *)
Definition to_ms (timestamp : pyval) : result Z :=
  match timestamp with
  | PStr s =>
      match fromisoformat (slice_to s (-1)) with
      | None => raise ValueError
      | Some parsed =>
          let timestamp := replace_tzinfo parsed (Some utc) in
          match Datetime.timestamp timestamp with
          | Some seconds => int_of_float (float_mul seconds (float_of_int 1000))
          | None => raise ValueError
          end
      end
  | _ => raise TypeError
  end.

(** [Trade(product_id=.., price=.., quantity=.., timestamp_ms=..)]: pydantic
    validates every field and raises one error if any of them is refused.
    [timestamp_ms] is already an [int]. *)
Definition new_Trade (product_id price quantity : pyval) (timestamp_ms : Z)
  : result Trade :=
  match validate_str product_id, validate_float quantity, validate_float price with
  | Some p, Some q, Some pr => ok (Trade.Trade p q pr timestamp_ms)
  | _, _, _ => raise ValidationError
  end.

(** One turn of the loop body of [get_trades]: the four subscripts and the
    conversion are evaluated left to right, then the record is built. *)
Definition trade_of (trade : pyval) : result Trade :=
  (symbol <- subscript trade "symbol" ;;
   price <- subscript trade "price" ;;
   qty <- subscript trade "qty" ;;
   timestamp <- subscript trade "timestamp" ;;
   ms <- to_ms timestamp ;;
   new_Trade symbol price qty ms)%result.

(** [for trade in ...: trades.append(Trade(...))], from the list built so far. *)
Fixpoint for_trades (items : list pyval) (trades : list Trade)
  : result (list Trade) :=
  match items with
  | [] => ok trades
  | trade :: rest =>
      (t <- trade_of trade ;; for_trades rest (trades ++ [t]))%result
  end.

(** What [get_trades] does with a frame that is not a heartbeat. *)
Definition parse_trades (message : string) : result (list Trade) :=
  match json_loads message with
  | None => raise JSONDecodeError
  | Some message =>
      (data <- subscript message "data" ;;
       items <- iterate data ;;
       for_trades items [])%result
  end.

Definition get_trades : method (list Trade) :=
  (message <- ws_recv ;;
   if contains "heartbeat" message then ret []
   else lift (parse_trades message))%method.

Definition is_done : method bool := ret false.

Definition subscription (product_id : string) : pyval :=
  PDict [("method", PStr "subscribe");
         ("params", PDict [("channel", PStr "trade");
                           ("symbol", PList [PStr product_id]);
                           ("snapshot", PBool false)])].

Definition _subscribe (product_id : string) : method unit :=
  (_ <- ws_send (json_dumps (subscription product_id)) ;;
   _ <- ws_recv ;;
   _ <- ws_recv ;;
   ret tt)%method.

(** [KrakenWebsocketAPI(product_id)], against a venue that will deliver
    [frames] on the new connection.  A constructor that raises leaves no
    instance. *)
Definition __init__ (product_id : string) (frames : list string) : result t :=
  let self := mk product_id (WebSocket.create_connection URL frames) in
  match _subscribe product_id self with
  | (inl e, _) => raise e
  | (inr _, self') => ok self'
  end.

End Methods.

End KrakenWebsocketAPI.

(* ===================================================================== *)
(** * main.py *)
(* ===================================================================== *)

Module Main.

Import KrakenWebsocketAPI.

(** The calls [produce_trades] makes once the loop is entered. *)
Inductive call : Type :=
| Get_trades
| Produce (topic : string) (value : string) (key : string)
| Sleep (seconds : Z).

(** The process: the feed client it owns and its calls so far, oldest
    first. *)
Record process : Type := mk_process {
  kraken_api : KrakenWebsocketAPI.t;
  calls : list call
}.

Definition step (A : Type) : Type := process -> result A * process.

Definition emit (c : call) : step unit :=
  fun p => (ok tt, mk_process (kraken_api p) (calls p ++ [c])).

Definition next {A B} (m : step A) (k : A -> step B) : step B :=
  fun p =>
    match m p with
    | (inl e, p') => (inl e, p')
    | (inr a, p') => k a p'
    end.

Declare Scope step_scope.
Delimit Scope step_scope with step.
Notation "x <- m ;; k" := (next m (fun x => k))
  (at level 61, m at next level, right associativity) : step_scope.

Section Loop.

Context {R : Runtime}.

(** [kraken_api.get_trades()]. *)
Definition poll : step (list Trade) :=
  fun p =>
    let (r, api') := get_trades (kraken_api p) in
    (r, mk_process api' (calls p ++ [Get_trades])).

(** [topic.serialize(key=.., value=..)] followed by [producer.produce]. *)
Definition publish (topic : string) (trade : Trade) : step unit :=
  let key := key_serializer (Trade.product_id trade) in
  let value := value_serializer (Trade.model_dump trade) in
  emit (Produce topic value key).

(** [for trade in trades: ...]. *)
Fixpoint for_each (topic : string) (trades : list Trade) : step unit :=
  match trades with
  | [] => fun p => (ok tt, p)
  | trade :: rest => (_ <- publish topic trade ;; for_each topic rest)%step
  end.

(** The body of [while True]. *)
Definition iteration (topic : string) : step unit :=
  (trades <- poll ;;
   _ <- for_each topic trades ;;
   emit (Sleep 1))%step.

(** The first [n] turns of [while True]; an exception ends the loop. *)
Fixpoint loop (topic : string) (n : nat) : step unit :=
  match n with
  | O => fun p => (ok tt, p)
  | S n' => (_ <- iteration topic ;; loop topic n')%step
  end.

(** [produce_trades], observed for [n] turns of its loop, against a venue
    that will deliver [frames]: how the run ends, and the calls made. *)
Definition produce_trades (kafka_topic product_id : string)
  (frames : list string) (n : nat) : result unit * list call :=
  match __init__ product_id frames with
  | inl e => (raise e, [])
  | inr api =>
      let (r, p) := loop kafka_topic n (mk_process api []) in
      (r, calls p)
  end.

End Loop.

End Main.

(* ===================================================================== *)
(** * An executable runtime *)
(* ===================================================================== *)

(** The theorems below hold for every [Runtime].  To run the model on
    concrete frames this module gives one: a JSON decoder and encoder, a
    parser for the shape [datetime.isoformat()] prints (every version of
    [fromisoformat] accepts it; recent ones accept more), and validators
    that accept the numbers a JSON text can hold (pydantic also converts a
    numeric string, which these refuse). *)
Module Reference.

Definition code (c : ascii) : Z := Z.of_N (N_of_ascii c).

Definition is_digit (c : ascii) : bool := (48 <=? code c) && (code c <=? 57).

Definition digit (c : ascii) : Z := code c - 48.

(** The longest run of decimal digits at the head of [s]: their value on
    top of [acc], how many there are, and what follows. *)
Fixpoint digits (s : string) (acc : Z) (n : Z) : Z * Z * string :=
  match s with
  | String c s' =>
      if is_digit c then digits s' (acc * 10 + digit c) (n + 1) else (acc, n, s)
  | EmptyString => (acc, n, s)
  end.

(** Exactly [k] digits, then the rest. *)
Fixpoint fixed_digits (k : nat) (s : string) (acc : Z) : option (Z * string) :=
  match k with
  | O => Some (acc, s)
  | S k' =>
      match s with
      | String c s' =>
          if is_digit c then fixed_digits k' s' (acc * 10 + digit c) else None
      | EmptyString => None
      end
  end.

(** ** json.loads *)

(** [float(text)] for a decimal literal [-]m * 10**e: rounded once. *)
Definition float_of_decimal (neg : bool) (m e : Z) : float :=
  if m =? 0 then S754_zero neg
  else
    let m' := if neg then - m else m in
    if 0 <=? e then binary_normalize prec emax (m' * 10 ^ e) 0 false
    else SFdiv prec emax (exact m') (exact (10 ^ (- e))).

Definition is_ws (c : ascii) : bool :=
  (code c =? 32) || (code c =? 9) || (code c =? 10) || (code c =? 13).

Fixpoint skip_ws (s : string) : string :=
  match s with
  | String c s' => if is_ws c then skip_ws s' else s
  | EmptyString => s
  end.

Definition hex (c : ascii) : option Z :=
  let n := code c in
  if (48 <=? n) && (n <=? 57) then Some (n - 48)
  else if (65 <=? n) && (n <=? 70) then Some (n - 55)
  else if (97 <=? n) && (n <=? 102) then Some (n - 87)
  else None.

Definition chr (n : Z) : ascii := ascii_of_N (Z.to_N n).

(** The body of a string literal, after its opening quote.  An escape above
    code point 255 has no [string] to decode to and is refused. *)
Fixpoint scanstring (s : string) : option (string * string) :=
  match s with
  | EmptyString => None
  | String c s' =>
      if code c =? 34 then Some (EmptyString, s')
      else if code c <? 32 then None
      else if code c =? 92 then
        match s' with
        | String e s'' =>
            let simple (x : Z) :=
              match scanstring s'' with
              | Some (body, rest) => Some (String (chr x) body, rest)
              | None => None
              end in
            match code e with
            | 34 => simple 34
            | 92 => simple 92
            | 47 => simple 47
            | 98 => simple 8
            | 102 => simple 12
            | 110 => simple 10
            | 114 => simple 13
            | 116 => simple 9
            | 117 =>
                match s'' with
                | String h1 (String h2 (String h3 (String h4 s3))) =>
                    match hex h1, hex h2, hex h3, hex h4 with
                    | Some 0, Some 0, Some a, Some b =>
                        match scanstring s3 with
                        | Some (body, rest) => Some (String (chr (a * 16 + b)) body, rest)
                        | None => None
                        end
                    | _, _, _, _ => None
                    end
                | _ => None
                end
            | _ => None
            end
        | EmptyString => None
        end
      else
        match scanstring s' with
        | Some (body, rest) => Some (String c body, rest)
        | None => None
        end
  end.

(** A number: an optional minus sign, an integer part without leading
    zeros, then optionally a point with digits and optionally an exponent.
    Without fraction and exponent it is an [int], otherwise a [float]. *)
Definition scan_number (s : string) : option (pyval * string) :=
  let (neg, s0) :=
    match s with
    | String c s' => if code c =? 45 then (true, s') else (false, s)
    | EmptyString => (false, s)
    end in
  let '(i, ni, s1) :=
    match s0 with
    | String c s' => if code c =? 48 then (0, 1, s') else digits s0 0 0
    | EmptyString => (0, 0, s0)
    end in
  if ni =? 0 then None
  else
    let '(m, nf, s2) :=
      match s1 with
      | String c s' =>
          if code c =? 46 then
            let '(m, nf, s'') := digits s' i 0 in
            if nf =? 0 then (i, 0, s1) else (m, nf, s'')
          else (i, 0, s1)
      | EmptyString => (i, 0, s1)
      end in
    let '(has_exp, e, s3) :=
      match s2 with
      | String c s' =>
          if (code c =? 101) || (code c =? 69) then
            let (eneg, s'') :=
              match s' with
              | String d t =>
                  if code d =? 45 then (true, t)
                  else if code d =? 43 then (false, t) else (false, s')
              | EmptyString => (false, s')
              end in
            let '(e, ne, s4) := digits s'' 0 0 in
            if ne =? 0 then (false, 0, s2)
            else (true, if eneg then - e else e, s4)
          else (false, 0, s2)
      | EmptyString => (false, 0, s2)
      end in
    if (nf =? 0) && negb has_exp then Some (PInt (if neg then - i else i), s3)
    else Some (PFloat (float_of_decimal neg m (e - nf)), s3).

(** [d[key] = v]: a key already there keeps its place. *)
Fixpoint dict_set (d : list (string * pyval)) (key : string) (v : pyval)
  : list (string * pyval) :=
  match d with
  | [] => [(key, v)]
  | (k, x) :: d' =>
      if String.eqb k key then (k, v) :: d' else (k, x) :: dict_set d' key v
  end.

(** [literal] at the head of [s]. *)
Definition expect (literal s : string) : option string :=
  if prefix literal s
  then Some (substring (String.length literal)
                       (String.length s - String.length literal) s)
  else None.

(** One JSON value at the head of [s].  [fuel] bounds the recursion; the
    length of the text is always enough. *)
Fixpoint scan_once (fuel : nat) (s : string) : option (pyval * string) :=
  match fuel with
  | O => None
  | S fuel' =>
      let array :=
        fix array (n : nat) (acc : list pyval) (s : string) {struct n}
          : option (pyval * string) :=
          match n with
          | O => None
          | S n' =>
              match scan_once fuel' s with
              | None => None
              | Some (v, rest) =>
                  match skip_ws rest with
                  | String c rest' =>
                      if code c =? 93 then Some (PList (acc ++ [v]), rest')
                      else if code c =? 44 then array n' (acc ++ [v])%list (skip_ws rest')
                      else None
                  | EmptyString => None
                  end
              end
          end in
      let object :=
        fix object (n : nat) (acc : list (string * pyval)) (s : string) {struct n}
          : option (pyval * string) :=
          match n with
          | O => None
          | S n' =>
              match s with
              | String q s1 =>
                  if code q =? 34 then
                    match scanstring s1 with
                    | None => None
                    | Some (key, s2) =>
                        match skip_ws s2 with
                        | String c s3 =>
                            if code c =? 58 then
                              match scan_once fuel' (skip_ws s3) with
                              | None => None
                              | Some (v, rest) =>
                                  match skip_ws rest with
                                  | String c rest' =>
                                      if code c =? 125
                                      then Some (PDict (dict_set acc key v), rest')
                                      else if code c =? 44
                                      then object n' (dict_set acc key v) (skip_ws rest')
                                      else None
                                  | EmptyString => None
                                  end
                              end
                            else None
                        | EmptyString => None
                        end
                    end
                  else None
              | EmptyString => None
              end
          end in
      match s with
      | EmptyString => None
      | String c s' =>
          match code c with
          | 34 =>
              match scanstring s' with
              | Some (body, rest) => Some (PStr body, rest)
              | None => None
              end
          | 123 =>
              match skip_ws s' with
              | String c' rest =>
                  if code c' =? 125 then Some (PDict [], rest)
                  else object fuel' [] (skip_ws s')
              | EmptyString => None
              end
          | 91 =>
              match skip_ws s' with
              | String c' rest =>
                  if code c' =? 93 then Some (PList [], rest)
                  else array fuel' [] (skip_ws s')
              | EmptyString => None
              end
          | 110 => option_map (pair PNone) (expect "null" s)
          | 116 => option_map (pair (PBool true)) (expect "true" s)
          | 102 => option_map (pair (PBool false)) (expect "false" s)
          | 78 => option_map (pair (PFloat S754_nan)) (expect "NaN" s)
          | 73 => option_map (pair (PFloat (S754_infinity false))) (expect "Infinity" s)
          | _ =>
              match expect "-Infinity" s with
              | Some rest => Some (PFloat (S754_infinity true), rest)
              | None => scan_number s
              end
          end
      end
  end.

(** [json.loads(s)]: one value, with white space around it and nothing
    else. *)
Definition loads (s : string) : option pyval :=
  match scan_once (S (String.length s)) (skip_ws s) with
  | Some (v, rest) =>
      match skip_ws rest with
      | EmptyString => Some v
      | String _ _ => None
      end
  | None => None
  end.

(** ** json.dumps *)

Fixpoint repeat_string (n : nat) (s : string) : string :=
  match n with
  | O => EmptyString
  | S n' => (s ++ repeat_string n' s)%string
  end.

(** The decimal digits of a natural number, most significant first. *)
Fixpoint decimal_digits (fuel : nat) (n : Z) (acc : string) : string :=
  match fuel with
  | O => acc
  | S fuel' =>
      let acc' := String (chr (48 + n mod 10)) acc in
      if n <? 10 then acc' else decimal_digits fuel' (n / 10) acc'
  end.

Definition string_of_nat (n : Z) : string :=
  decimal_digits (S (Z.to_nat (Z.log2 n))) n EmptyString.

(** [str(z)]. *)
Definition string_of_int (z : Z) : string :=
  if z <? 0 then String (chr 45) (string_of_nat (- z)) else string_of_nat z.

(** [x * 10**k] for a positive rational [x = num / den], as a fraction. *)
Definition scale10 (num den k : Z) : Z * Z :=
  if 0 <=? k then (num * 10 ^ k, den) else (num, den * 10 ^ (- k)).

(** The [decpt] with [10**(decpt-1) <= num/den < 10**decpt], searched from
    a first guess. *)
Fixpoint find_decpt (fuel : nat) (num den k : Z) : Z :=
  match fuel with
  | O => k
  | S fuel' =>
      let (a, b) := scale10 num den (- k) in
      if b <=? a then find_decpt fuel' num den (k + 1)
      else
        let (a', b') := scale10 num den (1 - k) in
        if a' <? b' then find_decpt fuel' num den (k - 1) else k
  end.

Definition same_float (x y : float) : bool :=
  match SFcompare x y with
  | Some Eq => true
  | _ => false
  end.

(** The shortest digit string that reads back as [x = num / den], and among
    those the one nearest to [x]: its digits as a number, and the exponent of
    its last digit. *)
Fixpoint shortest (fuel : nat) (x : float) (num den decpt n : Z) : Z * Z :=
  match fuel with
  | O => (0, 0)
  | S fuel' =>
      let (a, b) := scale10 num den (n - decpt) in
      let lo := a / b in
      let hi := lo + 1 in
      let back c := same_float (float_of_decimal false c (decpt - n)) x in
      let twice := 2 * (a mod b) in
      let nearer_lo := (twice <? b) || ((twice =? b) && Z.even lo) in
      match back lo, back hi with
      | true, true => (if nearer_lo then lo else hi, decpt - n)
      | true, false => (lo, decpt - n)
      | false, true => (hi, decpt - n)
      | false, false => shortest fuel' x num den decpt (n + 1)
      end
  end.

Fixpoint strip_zeros (fuel : nat) (d e : Z) : Z * Z :=
  match fuel with
  | O => (d, e)
  | S fuel' => if (d mod 10 =? 0) && negb (d =? 0) then strip_zeros fuel' (d / 10) (e + 1) else (d, e)
  end.

(** [repr(x)] of a positive finite float [m * 2**e]. *)
Definition repr_finite (m : positive) (e : Z) : string :=
  let (num, den) := if 0 <=? e then (Zpos m * 2 ^ e, 1) else (Zpos m, 2 ^ (- e)) in
  let guess := (Z.log2 (Zpos m) + e) * 30103 / 100000 in
  let decpt0 := find_decpt 8 num den guess in
  let (d0, e0) := shortest 17 (S754_finite false m e) num den decpt0 1 in
  let (d, e1) := strip_zeros 20 d0 e0 in
  let ds := string_of_nat d in
  let len := Z.of_nat (String.length ds) in
  let decpt := e1 + len in
  if (decpt <=? -4) || (16 <? decpt) then
    let mantissa :=
      match ds with
      | String c EmptyString => ds
      | String c rest => String c (String (chr 46) rest)
      | EmptyString => ds
      end in
    let ex := decpt - 1 in
    let exs := string_of_nat (Z.abs ex) in
    let sign := if ex <? 0 then "-" else "+" in
    let pad := if Z.abs ex <? 10 then "0" else "" in
    (mantissa ++ "e" ++ sign ++ pad ++ exs)%string
  else if decpt <=? 0 then
    ("0." ++ repeat_string (Z.to_nat (- decpt)) "0" ++ ds)%string
  else if len <=? decpt then
    (ds ++ repeat_string (Z.to_nat (decpt - len)) "0" ++ ".0")%string
  else
    (substring 0 (Z.to_nat decpt) ds ++ "."
       ++ substring (Z.to_nat decpt) (Z.to_nat (len - decpt)) ds)%string.

(** A float as [json.dumps] prints it. *)
Definition float_repr (x : float) : string :=
  match x with
  | S754_nan => "NaN"
  | S754_infinity s => if s then "-Infinity" else "Infinity"
  | S754_zero s => if s then "-0.0" else "0.0"
  | S754_finite s m e => ((if s then "-" else "") ++ repr_finite m e)%string
  end.

Definition hex_digit (n : Z) : ascii := chr (if n <? 10 then 48 + n else 87 + n).

(** A string literal, with everything outside printable ASCII escaped. *)
Fixpoint encode_chars (s : string) : string :=
  match s with
  | EmptyString => EmptyString
  | String c s' =>
      let n := code c in
      let esc (x : Z) := String (chr 92) (String (chr x) (encode_chars s')) in
      if n =? 34 then esc 34
      else if n =? 92 then esc 92
      else if n =? 10 then esc 110
      else if n =? 13 then esc 114
      else if n =? 9 then esc 116
      else if n =? 12 then esc 102
      else if n =? 8 then esc 98
      else if (n <? 32) || (126 <? n) then
        (String (chr 92) "u00" ++ String (hex_digit (n / 16))
           (String (hex_digit (n mod 16)) (encode_chars s')))%string
      else String c (encode_chars s')
  end.

Definition encode_string (s : string) : string :=
  String (chr 34) (encode_chars s ++ String (chr 34) EmptyString)%string.

Fixpoint join (sep : string) (l : list string) : string :=
  match l with
  | [] => EmptyString
  | [x] => x
  | x :: rest => (x ++ sep ++ join sep rest)%string
  end.

(** [json.dumps(v)], with the default separators. *)
Fixpoint dumps (v : pyval) : string :=
  match v with
  | PNone => "null"
  | PBool b => if b then "true" else "false"
  | PInt z => string_of_int z
  | PFloat f => float_repr f
  | PStr s => encode_string s
  | PList l => ("[" ++ join ", " (map dumps l) ++ "]")%string
  | PDict d =>
      ("{" ++ join ", " (map (fun kv => encode_string (fst kv) ++ ": " ++ dumps (snd kv)) d)
         ++ "}")%string
  end.

(** ** datetime.fromisoformat *)

(** [:] at the head of [s]. *)
Definition colon (s : string) : option string :=
  match s with
  | String c s' => if code c =? 58 then Some s' else None
  | EmptyString => None
  end.

(** [HH[:MM[:SS[.fff[fff]]]]], the whole of [s]. *)
Definition parse_hh_mm_ss_ff (s : string) : option (Z * Z * Z * Z) :=
  match fixed_digits 2 s 0 with
  | None => None
  | Some (hh, EmptyString) => Some (hh, 0, 0, 0)
  | Some (hh, s1) =>
      match option_map (fun t => fixed_digits 2 t 0) (colon s1) with
      | Some (Some (mm, EmptyString)) => Some (hh, mm, 0, 0)
      | Some (Some (mm, s2)) =>
          match option_map (fun t => fixed_digits 2 t 0) (colon s2) with
          | Some (Some (ss, EmptyString)) => Some (hh, mm, ss, 0)
          | Some (Some (ss, String c s3)) =>
              if code c =? 46 then
                match String.length s3, fixed_digits (String.length s3) s3 0 with
                | 3%nat, Some (ms, _) => Some (hh, mm, ss, ms * 1000)
                | 6%nat, Some (us, _) => Some (hh, mm, ss, us)
                | _, _ => None
                end
              else None
          | _ => None
          end
      | _ => None
      end
  end.

(** [s] cut at its first [+] or [-]: what precedes it, and the sign with
    what follows if there is one. *)
Fixpoint split_offset (s : string) : string * option (bool * string) :=
  match s with
  | EmptyString => (EmptyString, None)
  | String c s' =>
      if code c =? 43 then (EmptyString, Some (false, s'))
      else if code c =? 45 then (EmptyString, Some (true, s'))
      else let (t, off) := split_offset s' in (String c t, off)
  end.

Definition parse_isoformat_time (s : string) : option (Z * Z * Z * Z * option Z) :=
  let (timestr, off) := split_offset s in
  match parse_hh_mm_ss_ff timestr, off with
  | None, _ => None
  | Some t, None => Some (t, None)
  | Some t, Some (neg, tzstr) =>
      let n := String.length tzstr in
      if (n =? 5)%nat || (n =? 8)%nat || (n =? 15)%nat then
        match parse_hh_mm_ss_ff tzstr with
        | Some (h, m, sec, us) =>
            let td := ((h * 3600 + m * 60 + sec) * 1000000 + us) in
            if td <? 86400000000 then Some (t, Some (if neg then - td else td))
            else None
        | None => None
        end
      else None
  end.

Definition dash (s : string) : option string :=
  match s with
  | String c s' => if code c =? 45 then Some s' else None
  | EmptyString => None
  end.

(** [YYYY-MM-DD], then nothing or one separator and a time: the fields
    as they are read. *)
Definition parse_isoformat (s : string) : option datetime :=
  match fixed_digits 4 s 0 with
  | None => None
  | Some (y, s1) =>
      match option_map (fun t => fixed_digits 2 t 0) (dash s1) with
      | Some (Some (m, s2)) =>
          match option_map (fun t => fixed_digits 2 t 0) (dash s2) with
          | Some (Some (d, s3)) =>
              let time :=
                match s3 with
                | EmptyString => Some (0, 0, 0, 0, None)
                | String _ tstr => parse_isoformat_time tstr
                end in
              match time with
              | Some (hh, mm, ss, us, tz) => Some (mk_datetime y m d hh mm ss us tz)
              | None => None
              end
          | _ => None
          end
      | _ => None
      end
  end.

(** The fields read go through the constructor. *)
Definition fromisoformat (s : string) : option datetime :=
  match parse_isoformat s with
  | Some dt => if valid dt then Some dt else None
  | None => None
  end.

(** ** pydantic and the Kafka topic *)

(** A [str] field takes a string. *)
Definition validate_str (v : pyval) : option string :=
  match v with
  | PStr s => Some s
  | _ => None
  end.

(** A [float] field takes a float, and converts an int or a bool. *)
Definition validate_float (v : pyval) : option float :=
  match v with
  | PFloat f => Some f
  | PInt z =>
      match float_of_int z with
      | S754_infinity _ => None
      | f => Some f
      end
  | PBool b => Some (float_of_int (if b then 1 else 0))
  | _ => None
  end.

(** The UTF-8 bytes of a string. *)
Fixpoint utf8 (s : string) : string :=
  match s with
  | EmptyString => EmptyString
  | String c s' =>
      let n := code c in
      if n <? 128 then String c (utf8 s')
      else String (chr (192 + n / 64)) (String (chr (128 + n mod 64)) (utf8 s'))
  end.

Definition runtime : Runtime.
Proof.
  refine (Build_Runtime loads dumps fromisoformat validate_str validate_float
                        utf8 (fun v => utf8 (dumps v))
                        _ (fun s => eq_refl) (fun f => eq_refl)).
  intros s dt. unfold fromisoformat.
  destruct (parse_isoformat s) as [parsed|]; [|discriminate].
  destruct (valid parsed) eqn:Hvalid; [|discriminate].
  intros H. injection H as <-. exact Hvalid.
Defined.

End Reference.

(* ===================================================================== *)
(** * Sample traffic *)
(* ===================================================================== *)

(** Frames of the shapes the venue sends, and a few it should not.  They
    are written with ['] where the wire has a double quote. *)
Module Examples.

Import Reference.

Definition wire (s : string) : string :=
  string_of_list_ascii
    (map (fun c => if code c =? 39 then chr 34 else c) (list_ascii_of_string s)).

Definition status_frame : string :=
  wire "{'channel':'status','data':[{'api_version':'v2','system':'online'}],'type':'update'}".

Definition ack_frame : string :=
  wire "{'method':'subscribe','result':{'channel':'trade','snapshot':false,'symbol':'ETH/USD'},'success':true}".

Definition heartbeat_frame : string := wire "{'channel':'heartbeat'}".

(** Two trades. *)
Definition trade_frame : string :=
  wire ("{'channel':'trade','type':'update','data':["
        ++ "{'symbol':'ETH/USD','side':'sell','price':2500.5,'qty':0.25,"
        ++ "'ord_type':'market','trade_id':1,'timestamp':'2024-01-01T00:00:00.000000Z'},"
        ++ "{'symbol':'ETH/USD','side':'buy','price':2501.0,'qty':1.0,"
        ++ "'ord_type':'limit','trade_id':2,'timestamp':'2024-01-01T00:00:01.250000Z'}]}").

(** A trade, then an element without [qty]. *)
Definition broken_frame : string :=
  wire ("{'channel':'trade','type':'update','data':["
        ++ "{'symbol':'ETH/USD','price':2500.5,'qty':0.25,"
        ++ "'timestamp':'2024-01-01T00:00:00.000000Z'},"
        ++ "{'symbol':'ETH/USD','price':2501.0,"
        ++ "'timestamp':'2024-01-01T00:00:01.250000Z'}]}").

(** An element with an empty symbol, a negative price, a zero quantity and
    a timestamp before 1970. *)
Definition odd_frame : string :=
  wire ("{'data':[{'symbol':'','price':-1.5,'qty':0.0,"
        ++ "'timestamp':'1969-12-31T23:59:59.000000Z'}]}").

(** A client whose connection will deliver [frames]. *)
Definition client (frames : list string) : KrakenWebsocketAPI.t :=
  KrakenWebsocketAPI.mk "ETH/USD"
    (WebSocket.mk KrakenWebsocketAPI.URL frames []).

(** The client the constructor leaves once the venue has sent its two
    opening frames; [frames] are still to come. *)
Definition subscribed (frames : list string) : KrakenWebsocketAPI.t :=
  KrakenWebsocketAPI.mk "ETH/USD"
    (WebSocket.mk KrakenWebsocketAPI.URL frames
       [dumps (KrakenWebsocketAPI.subscription "ETH/USD")]).

Definition decoded (frame : string) : pyval :=
  match loads frame with
  | Some message => message
  | None => PNone
  end.

Definition elements_of (frame : string) : list pyval :=
  match subscript (decoded frame) "data" with
  | inr (PList elements) => elements
  | _ => []
  end.

Definition trade_elements : list pyval := Eval vm_compute in elements_of trade_frame.

Definition broken_elements : list pyval := Eval vm_compute in elements_of broken_frame.

(** 2500.5, 2501.0, 0.25, 1.0, -1.5 and 0.0 as binary64. *)
Definition f2500_5 : float := S754_finite false 5498657650507776 (-41).
Definition f2501 : float := S754_finite false 5499757162135552 (-41).
Definition f0_25 : float := S754_finite false 4503599627370496 (-54).
Definition f1 : float := S754_finite false 4503599627370496 (-52).
Definition minus_1_5 : float := S754_finite true 6755399441055744 (-52).

Definition trades : list Trade :=
  [Trade.Trade "ETH/USD" f0_25 f2500_5 1704067200000;
   Trade.Trade "ETH/USD" f1 f2501 1704067201250].

Definition odd_trade : Trade :=
  Trade.Trade "" (S754_zero false) minus_1_5 (-1000).

End Examples.

(* ===================================================================== *)
(** * Vocabulary of the specification *)
(* ===================================================================== *)

Module Spec.

Import KrakenWebsocketAPI.

(** Microseconds from 1970-01-01T00:00:00 to the wall-clock reading of [dt],
    whatever zone [dt] carries: the reading is taken as UTC. *)
Definition epoch_microseconds (dt : datetime) : Z :=
  ((toordinal dt - 719163) * 86400
   + hour dt * 3600 + minute dt * 60 + second dt) * 1000000
  + microsecond dt.

(** The conversion as the specification words it: the epoch-second float,
    times 1000, truncated to an integer. *)
Definition epoch_seconds (dt : datetime) : float :=
  int_truediv (epoch_microseconds dt) 1000000.

Definition milliseconds (dt : datetime) : result Z :=
  int_of_float (float_mul (epoch_seconds dt) (float_of_int 1000)).

(** [self] once the frame at the head of its connection has been received. *)
Definition after_recv (self : KrakenWebsocketAPI.t) : KrakenWebsocketAPI.t :=
  let ws := _ws self in
  mk (product_id self)
     (WebSocket.mk (WebSocket.url ws) (tl (WebSocket.inbound ws)) (WebSocket.sent ws)).

(** The next frame [self] will receive is [frame]. *)
Definition next_frame (self : KrakenWebsocketAPI.t) (frame : string) : Prop :=
  hd_error (WebSocket.inbound (_ws self)) = Some frame.

(** The source has no exception class for the specification's
    ProtocolViolation.  It stands for any exception raised while the content
    of a received frame is decoded, as opposed to a failure of the
    transport. *)
Definition ProtocolViolation (e : exn) : bool :=
  match e with
  | WebSocketConnectionClosedException => false
  | _ => true
  end.

(** The fields a trade element must have. *)
Definition required_fields : list string := ["symbol"; "price"; "qty"; "timestamp"].

(** [element] has no value under [key]. *)
Definition lacks (element : pyval) (key : string) : Prop :=
  forall v, subscript element key <> ok v.

Definition missing_field (element : pyval) : Prop :=
  exists key, In key required_fields /\ lacks element key.

(** [0 < x] on floats. *)
Definition is_positive (x : float) : bool := SFltb (S754_zero false) x.

(** The ranges the data model asks of a Trade. *)
Definition in_range (t : Trade) : bool :=
  negb (String.eqb (Trade.product_id t) "")
  && is_positive (Trade.price t)
  && is_positive (Trade.quantity t)
  && (0 <=? Trade.timestamp_ms t).

Section WithRuntime.

Context {R : Runtime}.

(** [trade] holds the fields of [element]: symbol, price and qty as they
    are, and the timestamp converted. *)
Definition copies (element : pyval) (trade : Trade) : Prop :=
  subscript element "symbol" = ok (PStr (Trade.product_id trade))
  /\ subscript element "price" = ok (PFloat (Trade.price trade))
  /\ subscript element "qty" = ok (PFloat (Trade.quantity trade))
  /\ exists timestamp,
       subscript element "timestamp" = ok (PStr timestamp)
       /\ to_ms (PStr timestamp) = ok (Trade.timestamp_ms trade).

(** A well-formed trade element: a string symbol, float price and qty, and
    a timestamp string made of a date-time [fromisoformat] reads and one
    more character, the designator. *)
Definition well_formed (element : pyval) : Prop :=
  exists symbol price qty body designator dt,
    subscript element "symbol" = ok (PStr symbol)
    /\ subscript element "price" = ok (PFloat price)
    /\ subscript element "qty" = ok (PFloat qty)
    /\ subscript element "timestamp" = ok (PStr (body ++ String designator ""))
    /\ fromisoformat body = Some dt.

(** A frame that is not valid structured data, or that has a trade element
    without a required field: it does not decode; or the message has no
    [data]; or [data] is not a collection; or [data], a list in a frame of
    the venue, has an element that lacks a field. *)
Inductive malformed (frame : string) : Prop :=
| not_json :
    json_loads frame = None -> malformed frame
| no_data (message : pyval) :
    json_loads frame = Some message ->
    lacks message "data" -> malformed frame
| data_not_iterable (message data : pyval) :
    json_loads frame = Some message ->
    subscript message "data" = ok data ->
    (forall items, iterate data <> ok items) -> malformed frame
| element_missing_field (message data : pyval) (elements : list pyval) :
    json_loads frame = Some message ->
    subscript message "data" = ok data ->
    iterate data = ok elements ->
    Exists missing_field elements -> malformed frame.

(** [trade] is what validation and conversion make of the fields of
    [element]. *)
Definition built_from (element : pyval) (trade : Trade) : Prop :=
  exists symbol price qty timestamp,
    subscript element "symbol" = ok symbol
    /\ subscript element "price" = ok price
    /\ subscript element "qty" = ok qty
    /\ subscript element "timestamp" = ok timestamp
    /\ validate_str symbol = Some (Trade.product_id trade)
    /\ validate_float price = Some (Trade.price trade)
    /\ validate_float qty = Some (Trade.quantity trade)
    /\ to_ms timestamp = ok (Trade.timestamp_ms trade).

(** [element] itself is within the ranges the data model asks of a Trade:
    a symbol that is not empty, a positive price and qty, and a timestamp
    that reads at or after 1970-01-01T00:00:00. *)
Definition element_in_range (element : pyval) : Prop :=
  exists symbol price qty timestamp dt,
    subscript element "symbol" = ok (PStr symbol)
    /\ symbol <> ""%string
    /\ subscript element "price" = ok (PFloat price)
    /\ is_positive price = true
    /\ subscript element "qty" = ok (PFloat qty)
    /\ is_positive qty = true
    /\ subscript element "timestamp" = ok (PStr timestamp)
    /\ fromisoformat (slice_to timestamp (-1)) = Some dt
    /\ 0 <= epoch_microseconds dt.

(** The operations of a client, and a client's state after a series of
    them.  A call that raises leaves the instance as the call left it. *)
Inductive operation : Type :=
| Call_get_trades
| Call_is_done
| Call_to_ms (timestamp : pyval).

Definition perform (self : KrakenWebsocketAPI.t) (op : operation) : KrakenWebsocketAPI.t :=
  match op with
  | Call_get_trades => snd (get_trades self)
  | Call_is_done => snd (is_done self)
  | Call_to_ms timestamp => snd (lift (to_ms timestamp) self)
  end.

Definition lifetime (self : KrakenWebsocketAPI.t) (ops : list operation)
  : KrakenWebsocketAPI.t :=
  fold_left perform ops self.

End WithRuntime.

End Spec.

(* ===================================================================== *)
(** * Vocabulary for whole runs *)
(* ===================================================================== *)

Module Runs.

Import KrakenWebsocketAPI Main Spec.

(** The first of the four fields a dict has no value for, in the order the
    loop body of [get_trades] reads them. *)
Definition first_missing (d : list (string * pyval)) : option string :=
  find (fun key => match dict_get d key with
                   | None => true
                   | Some _ => false
                   end)
       required_fields.

(** The exceptions of the loop body of [get_trades]: [KeyError] for one
    of the four fields, [TypeError], [ValueError] or [ValidationError]. *)
Definition element_exception (e : exn) : Prop :=
  (exists key, In key required_fields /\ e = KeyError key)
  \/ e = TypeError \/ e = ValueError \/ e = ValidationError.

(** The messages handed to the producer, in order: topic, value, key. *)
Definition produced (cs : list call) : list (string * string * string) :=
  flat_map (fun c => match c with
                     | Produce topic value key => [(topic, value, key)]
                     | _ => []
                     end) cs.

(** How many times the process slept. *)
Definition sleeps (cs : list call) : nat :=
  List.length (filter (fun c => match c with Sleep _ => true | _ => false end) cs).

(** How many of the operations are calls of [get_trades]. *)
Definition polls_among (ops : list operation) : nat :=
  List.length (filter (fun op => match op with
                                 | Call_get_trades => true
                                 | _ => false
                                 end) ops).

Section WithRuntime.

Context {R : Runtime}.

(** The message [produce_trades] publishes for [trade] on [topic]. *)
Definition message (topic : string) (trade : Trade) : string * string * string :=
  (topic, value_serializer (Trade.model_dump trade),
   key_serializer (Trade.product_id trade)).

(** The calls of one completed turn of the loop that polled [trades]. *)
Definition turn_calls (topic : string) (trades : list Trade) : list call :=
  [Get_trades]
  ++ map (fun trade =>
            Produce topic (value_serializer (Trade.model_dump trade))
                    (key_serializer (Trade.product_id trade)))
         trades
  ++ [Sleep 1].

(** Up to [n] calls of [get_trades] in a row: the batches returned before
    the first call that raises, its exception if there is one, and the
    client afterwards. *)
Fixpoint polls (n : nat) (api : KrakenWebsocketAPI.t)
  : list (list Trade) * option exn * KrakenWebsocketAPI.t :=
  match n with
  | O => ([], None, api)
  | S n' =>
      match get_trades api with
      | (inl e, api') => ([], Some e, api')
      | (inr batch, api') =>
          let '(batches, raised, api'') := polls n' api' in
          (batch :: batches, raised, api'')
      end
  end.

End WithRuntime.

End Runs.

(* ===================================================================== *)
(** * Strings *)
(* ===================================================================== *)

Section Strings.

Local Open Scope string_scope.

Lemma prefix_app (n post : string) : prefix n (n ++ post) = true.
Proof.
  induction n as [|c n IH]; simpl.
  - now destruct post.
  - destruct (ascii_dec c c) as [_|Hc]; [exact IH | now elim Hc].
Qed.

Lemma prefix_split (n h : string) :
  prefix n h = true -> exists post, h = n ++ post.
Proof.
  revert h. induction n as [|c n IH]; intros h Hp.
  - now exists h.
  - destruct h as [|d h]; simpl in Hp; [discriminate|].
    destruct (ascii_dec c d) as [->|_]; [|discriminate].
    destruct (IH _ Hp) as [post ->]. now exists post.
Qed.

Lemma contains_nil (needle : string) : contains needle "" = prefix needle "".
Proof. simpl. apply orb_false_r. Qed.

Lemma contains_cons (needle : string) (c : ascii) (hay : string) :
  contains needle (String c hay) = prefix needle (String c hay) || contains needle hay.
Proof. reflexivity. Qed.

(** [needle in hay] holds exactly when [hay] has [needle] between a prefix
    and a suffix. *)
Lemma contains_spec (needle hay : string) :
  contains needle hay = true <-> exists pre post, hay = pre ++ needle ++ post.
Proof.
  split.
  - induction hay as [|c hay IH].
    + rewrite contains_nil. intros H.
      destruct (prefix_split _ _ H) as [post E]. now exists "", post.
    + rewrite contains_cons. intros H.
      apply orb_true_iff in H as [H|H].
      * destruct (prefix_split _ _ H) as [post E]. now exists "", post.
      * destruct (IH H) as (pre & post & ->). now exists (String c pre), post.
  - intros (pre & post & ->).
    induction pre as [|c pre IH].
    + change ("" ++ needle ++ post) with (needle ++ post).
      destruct (needle ++ post) as [|c rest] eqn:E.
      * rewrite contains_nil, <- E. apply prefix_app.
      * rewrite contains_cons, <- E, prefix_app. reflexivity.
    + change (String c pre ++ needle ++ post) with (String c (pre ++ needle ++ post)).
      rewrite contains_cons, IH. apply orb_true_r.
Qed.

Lemma length_snoc (s : string) (c : ascii) :
  String.length (s ++ String c "") = S (String.length s).
Proof. induction s; simpl; congruence. Qed.

Lemma substring_app (s t : string) : substring 0 (String.length s) (s ++ t) = s.
Proof.
  induction s as [|c s IH]; simpl.
  - now destruct t.
  - now rewrite IH.
Qed.

(** [s[:-1]] drops the last character, whichever it is. *)
Lemma slice_to_snoc (s : string) (c : ascii) : slice_to (s ++ String c "") (-1) = s.
Proof.
  unfold slice_to. rewrite length_snoc.
  change (-1 <? 0)%Z with true. cbv iota.
  replace (Z.to_nat (Z.max (-1 + Z.of_nat (S (String.length s))) 0))
    with (String.length s) by lia.
  apply substring_app.
Qed.

(** A string that is not empty ends in some character. *)
Lemma string_snoc (s : string) :
  s <> "" -> exists body c, s = body ++ String c "".
Proof.
  induction s as [|a s IH]; intros H; [now elim H|].
  destruct s as [|b s].
  - now exists "", a.
  - destruct IH as (body & c & E); [discriminate|].
    exists (String a body), c. simpl. now rewrite <- E.
Qed.

End Strings.

Import KrakenWebsocketAPI Spec.

(* ===================================================================== *)
(** * Floats and dates *)
(* ===================================================================== *)

Section Floats.

Lemma digits2_pos_size (p : positive) : digits2_pos p = Pos.size p.
Proof. induction p; simpl; congruence. Qed.

(** [Zdigits2] is the bit length. *)
Lemma Zdigits2_log2 (m : Z) : 0 < m -> Zdigits2 m = Z.log2 m + 1.
Proof.
  destruct m as [|p|p]; try lia. intros _. simpl.
  rewrite digits2_pos_size. destruct p; simpl; lia.
Qed.

Lemma Zdigits2_nonneg (m : Z) : 0 <= Zdigits2 m.
Proof. destruct m; simpl; lia. Qed.

Lemma Zdigits2_le (a b : Z) : 0 <= a <= b -> Zdigits2 a <= Zdigits2 b.
Proof.
  intros [Ha Hab].
  destruct (Z.eq_dec a 0) as [->|Hn]; [apply Zdigits2_nonneg|].
  rewrite !Zdigits2_log2 by lia.
  pose proof (Z.log2_le_mono a b Hab). lia.
Qed.

Lemma Zdigits2_succ (m : Z) : 0 <= m -> Zdigits2 (m + 1) <= Zdigits2 m + 1.
Proof.
  intros Hm. destruct (Z.eq_dec m 0) as [->|Hn]; [simpl; lia|].
  rewrite !Zdigits2_log2 by lia.
  pose proof (Z.log2_succ_le m) as H. rewrite <- Z.add_1_r in H. lia.
Qed.

Lemma Zdigits2_shiftl (m s : Z) : 0 < m -> 0 <= s -> Zdigits2 (Z.shiftl m s) = Zdigits2 m + s.
Proof.
  intros Hm Hs.
  assert (0 < Z.shiftl m s) by (rewrite Z.shiftl_mul_pow2 by lia; apply Z.mul_pos_pos; [lia|apply Z.pow_pos_nonneg; lia]).
  rewrite !Zdigits2_log2 by lia.
  rewrite Z.log2_shiftl by lia. lia.
Qed.

(** One shift halves the mantissa. *)
Lemma shr_1_m (mrs : shr_record) :
  0 <= shr_m mrs -> 0 <= shr_m (shr_1 mrs) <= shr_m mrs.
Proof.
  destruct mrs as [m r s]. simpl. intros Hm.
  destruct m as [|[p|p|]|p]; simpl; lia.
Qed.

Lemma iter_pos_shr_1 (n : positive) (mrs : shr_record) :
  0 <= shr_m mrs -> 0 <= shr_m (iter_pos shr_1 n mrs) <= shr_m mrs.
Proof.
  revert mrs. induction n as [n IH|n IH|]; intros mrs Hm; simpl.
  - pose proof (shr_1_m mrs Hm) as H1.
    pose proof (IH _ (proj1 H1)) as H2.
    pose proof (IH _ (proj1 H2)) as H3. lia.
  - pose proof (IH _ Hm) as H2.
    pose proof (IH _ (proj1 H2)) as H3. lia.
  - now apply shr_1_m.
Qed.

Lemma shr_record_of_loc_m (m : Z) (l : location) : shr_m (shr_record_of_loc m l) = m.
Proof. destruct l as [|[]]; reflexivity. Qed.

(** Shifting to the format's exponent: the mantissa shrinks, the exponent
    is the larger of the two. *)
Lemma shr_fexp_bounds (m e : Z) (l : location) :
  0 <= m ->
  let '(mrs, e') := shr_fexp prec emax m e l in
  0 <= shr_m mrs <= m /\ (e' = e \/ e' = fexp prec emax (Zdigits2 m + e)).
Proof.
  intros Hm. unfold shr_fexp, shr.
  destruct (fexp prec emax (Zdigits2 m + e) - e) as [|n|n] eqn:En.
  - rewrite shr_record_of_loc_m. split; [lia|now left].
  - pose proof (iter_pos_shr_1 n (shr_record_of_loc m l)) as H.
    rewrite shr_record_of_loc_m in H. split; [now apply H|right; lia].
  - rewrite shr_record_of_loc_m. split; [lia|now left].
Qed.

Lemma round_nearest_even_bounds (m : Z) (l : location) :
  0 <= m -> m <= round_nearest_even m l <= m + 1.
Proof.
  intros Hm. unfold round_nearest_even.
  destruct l as [|[]]; try lia. destruct (Z.even m); lia.
Qed.

(** Rounding a mantissa of at most [D] bits with exponent at most [E] to
    binary64 never gives NaN, and stays finite while [E + 2 * D] does not
    pass the largest exponent. *)
Lemma binary_round_aux_finite (s : bool) (m e : Z) (l : location) (D E : Z) :
  0 <= m -> Zdigits2 m <= D -> -1074 <= E -> e <= E -> E + 2 * D <= 971 ->
  match binary_round_aux prec emax s m e l with
  | S754_zero _ => True
  | S754_finite _ m' e' => Zdigits2 (Zpos m') <= D + 1 /\ e' <= E + 2 * D
  | _ => False
  end.
Proof.
  intros Hm Hd HE He Hfin. unfold binary_round_aux.
  pose proof (shr_fexp_bounds m e l Hm) as H1.
  pose proof (Zdigits2_nonneg m) as Hd0.
  destruct (shr_fexp prec emax m e l) as [mrs e'].
  destruct H1 as [Hm1 He1].
  set (m1 := round_nearest_even (shr_m mrs) (loc_of_shr_record mrs)).
  pose proof (round_nearest_even_bounds (shr_m mrs) (loc_of_shr_record mrs) (proj1 Hm1)) as Hr.
  fold m1 in Hr.
  assert (0 <= m1) as Hm1' by lia.
  assert (Zdigits2 m1 <= D + 1) as Hd1.
  { pose proof (Zdigits2_le m1 (shr_m mrs + 1) ltac:(lia)).
    pose proof (Zdigits2_succ (shr_m mrs) (proj1 Hm1)).
    pose proof (Zdigits2_le (shr_m mrs) m ltac:(lia)). lia. }
  assert (e' <= E + D) as He'.
  { unfold fexp, emin, emax, prec in He1. lia. }
  pose proof (shr_fexp_bounds m1 e' loc_Exact Hm1') as H2.
  pose proof (Zdigits2_nonneg m1) as Hd10.
  destruct (shr_fexp prec emax m1 e' loc_Exact) as [mrs' e''].
  destruct H2 as [Hm2 He2].
  assert (e'' <= E + 2 * D) as He''.
  { unfold fexp, emin, emax, prec in He2. lia. }
  destruct (shr_m mrs') as [|m'|m'] eqn:Em'; [exact I| |lia].
  replace (e'' <=? emax - prec) with true
    by (symmetry; apply Z.leb_le; unfold emax, prec; lia).
  split; [|exact He''].
  pose proof (Zdigits2_le (Zpos m') m1 ltac:(lia)). lia.
Qed.

Lemma Zdigits2_mul (a b : Z) :
  0 <= a -> 0 <= b -> Zdigits2 (a * b) <= Zdigits2 a + Zdigits2 b.
Proof.
  intros Ha Hb.
  destruct (Z.eq_dec a 0) as [->|Hna]; [simpl; apply Zdigits2_nonneg|].
  destruct (Z.eq_dec b 0) as [->|Hnb];
    [rewrite Z.mul_0_r; simpl; pose proof (Zdigits2_nonneg a); lia|].
  rewrite !Zdigits2_log2 by nia.
  pose proof (Z.log2_mul_above a b Ha Hb). lia.
Qed.

(** The quotient the division hands to rounding. *)
Lemma SFdiv_core_binary_bounds (m1 m2 : positive) :
  let '(q, e, _) := SFdiv_core_binary prec emax (Zpos m1) 0 (Zpos m2) 0 in
  0 <= q
  /\ Zdigits2 q <= Z.max (Zdigits2 (Zpos m2) + 53) (Zdigits2 (Zpos m1))
  /\ e <= 0.
Proof.
  unfold SFdiv_core_binary.
  set (d1 := Zdigits2 (Zpos m1)). set (d2 := Zdigits2 (Zpos m2)).
  set (e := Z.min _ _).
  assert (Z.min (d1 - d2 - 53) 0 <= e <= 0) as He.
  { unfold e, fexp, emin, emax, prec. lia. }
  replace (0 - 0 - e) with (- e) by lia.
  set (m' := match - e with
             | Z.pos _ => Z.shiftl (Zpos m1) (- e)
             | 0 => Zpos m1
             | Z.neg _ => 0
             end).
  assert (0 <= m' /\ Zdigits2 m' <= Z.max (d2 + 53) d1) as [Hm' Hd'].
  { unfold m'. destruct (- e) as [|s|s] eqn:Es.
    - fold d1. lia.
    - rewrite <- Es. split.
      + apply Z.shiftl_nonneg. lia.
      + rewrite Zdigits2_shiftl by lia. fold d1. lia.
    - lia. }
  pose proof (Z.div_eucl_eq m' (Zpos m2) ltac:(lia)) as Hdiv.
  pose proof (Z.mod_pos_bound m' (Zpos m2) ltac:(lia)) as Hmod.
  unfold Z.modulo in Hmod.
  destruct (Z.div_eucl m' (Zpos m2)) as [q r].
  assert (0 <= q <= m') as Hq by nia.
  split; [lia|]. split; [|lia].
  pose proof (Zdigits2_le q m' Hq). lia.
Qed.

(** Dividing an integer below [2**62] in size by a million and multiplying
    the quotient by a thousand stays within the finite floats, so the
    truncation returns. *)
Lemma scaled_quotient_returns (us : Z) :
  - 2 ^ 62 < us < 2 ^ 62 ->
  exists z,
    int_of_float (float_mul (int_truediv us 1000000) (float_of_int 1000)) = ok z.
Proof.
  intros Hus. unfold float_mul, int_truediv.
  replace (float_of_int 1000) with (S754_finite false 8796093022208000 (-43))
    by (vm_compute; reflexivity).
  change (exact 1000000) with (S754_finite false 1000000 0).
  assert (forall (s : bool) (p : positive),
            Zpos p < 2 ^ 62 ->
            exists z,
              int_of_float
                (SFmul prec emax
                   (SFdiv prec emax (S754_finite s p 0) (S754_finite false 1000000 0))
                   (S754_finite false 8796093022208000 (-43))) = ok z) as Hcase.
  { intros s p Hp. unfold SFdiv.
    pose proof (SFdiv_core_binary_bounds p 1000000) as Hq.
    destruct (SFdiv_core_binary prec emax (Z.pos p) 0 1000000 0) as [[q e] l].
    destruct Hq as (Hq0 & Hqd & He).
    assert (Zdigits2 (Zpos p) <= 62) as Hd.
    { rewrite Zdigits2_log2 by lia.
      pose proof (Z.log2_lt_pow2 (Zpos p) 62 ltac:(lia)). lia. }
    change (Zdigits2 1000000) with 20 in Hqd.
    pose proof (binary_round_aux_finite (xorb s false) q e l 73 0
                  Hq0 ltac:(lia) ltac:(lia) He ltac:(lia)) as Hdiv.
    destruct (binary_round_aux prec emax (xorb s false) q e l)
      as [sz|sz| |sz mz ez]; try contradiction.
    - now exists 0.
    - destruct Hdiv as [Hmz Hez]. unfold SFmul.
      pose proof (Zdigits2_mul (Zpos mz) 8796093022208000 ltac:(lia) ltac:(lia)) as Hmul.
      change (Zdigits2 8796093022208000) with 53 in Hmul.
      pose proof (binary_round_aux_finite (xorb sz false)
                    (Zpos (mz * 8796093022208000)) (ez + -43) loc_Exact 127 103
                    ltac:(lia) ltac:(rewrite Pos2Z.inj_mul; lia) ltac:(lia)
                    ltac:(lia) ltac:(lia)) as Hprod.
      destruct (binary_round_aux prec emax (xorb sz false)
                  (Zpos (mz * 8796093022208000)) (ez + -43) loc_Exact)
        as [sp|sp| |sp mp ep]; try contradiction.
      + now exists 0.
      + simpl. eexists. reflexivity. }
  destruct us as [|p|p].
  - now exists 0.
  - apply Hcase. lia.
  - apply Hcase. lia.
Qed.

End Floats.

Section Dates.

Lemma days_before_year_bounds (y : Z) :
  1 <= y <= 9999 -> 0 <= days_before_year y <= 3652000.
Proof.
  intros Hy. unfold days_before_year. cbv zeta.
  pose proof (Z.div_mod (y - 1) 4 ltac:(lia)).
  pose proof (Z.mod_pos_bound (y - 1) 4 ltac:(lia)).
  pose proof (Z.div_mod (y - 1) 100 ltac:(lia)).
  pose proof (Z.mod_pos_bound (y - 1) 100 ltac:(lia)).
  pose proof (Z.div_mod (y - 1) 400 ltac:(lia)).
  pose proof (Z.mod_pos_bound (y - 1) 400 ltac:(lia)).
  lia.
Qed.

Lemma days_before_month_bounds (y m : Z) : 0 <= days_before_month y m <= 335.
Proof.
  unfold days_before_month.
  assert (0 <= nth (Z.to_nat m)
                 [0; 0; 31; 59; 90; 120; 151; 181; 212; 243; 273; 304; 334] 0
          <= 334) as Hnth.
  { remember (nth (Z.to_nat m) _ 0) as v eqn:Ev.
    destruct (nth_in_or_default (Z.to_nat m)
                [0; 0; 31; 59; 90; 120; 151; 181; 212; 243; 273; 304; 334] 0)
      as [Hin | Hd]; rewrite <- Ev in *; [|lia].
    simpl in Hin. intuition lia. }
  destruct (_ && _); lia.
Qed.

Lemma days_in_month_bound (y m : Z) : days_in_month y m <= 31.
Proof.
  unfold days_in_month. destruct (_ && _); [lia|].
  remember (nth (Z.to_nat m) _ 0) as v eqn:Ev.
  destruct (nth_in_or_default (Z.to_nat m)
              [0; 31; 28; 31; 30; 31; 30; 31; 31; 30; 31; 30; 31] 0)
    as [Hin | Hd]; rewrite <- Ev in *; [|lia].
  simpl in Hin. intuition lia.
Qed.

(** A valid value is less than [2**62] microseconds away from the epoch. *)
Lemma valid_epoch_microseconds (dt : datetime) :
  valid dt = true -> - 2 ^ 62 < epoch_microseconds dt < 2 ^ 62.
Proof.
  unfold valid. rewrite !andb_true_iff, !Z.leb_le.
  intros Hv. decompose [and] Hv; clear Hv.
  unfold epoch_microseconds, toordinal.
  pose proof (days_before_year_bounds (year dt) ltac:(lia)).
  pose proof (days_before_month_bounds (year dt) (month dt)).
  pose proof (days_in_month_bound (year dt) (month dt)).
  change (2 ^ 62) with 4611686018427387904. lia.
Qed.

End Dates.

(* ===================================================================== *)
(** * Properties of the feed client *)
(* ===================================================================== *)

Section Conversion.

Context {R : Runtime}.

(** The constructor's normalisation keeps the length of a [timedelta]. *)
Lemma to_microseconds_new_timedelta (d s us : Z) :
  to_microseconds (new_timedelta d s us) = (d * 86400 + s) * 1000000 + us.
Proof.
  unfold to_microseconds, new_timedelta; cbn [days seconds microseconds].
  pose proof (Z.div_mod (s + us / 1000000) 86400 ltac:(lia)) as Hs.
  pose proof (Z.div_mod us 1000000 ltac:(lia)) as Hus.
  lia.
Qed.

(** Once the zone is replaced by UTC, [timestamp()] is the epoch-second
    value of the wall-clock reading. *)
Lemma timestamp_replace_utc (dt : datetime) :
  timestamp (replace_tzinfo dt (Some utc)) = Some (epoch_seconds dt).
Proof.
  unfold timestamp, total_seconds, sub_aware, epoch_seconds.
  cbn [tzinfo replace_tzinfo].
  rewrite to_microseconds_new_timedelta. do 2 f_equal.
  change (toordinal EPOCH) with 719163.
  destruct dt as [y m d hh mm ss us tz].
  unfold epoch_microseconds, replace_tzinfo, toordinal, EPOCH, utc.
  cbn [year month day hour minute second microsecond].
  lia.
Qed.

(** What [to_ms] makes of a string, from the string without its last
    character. *)
Lemma to_ms_snoc (body : string) (c : ascii) :
  to_ms (PStr (body ++ String c ""))
  = match fromisoformat body with
    | None => raise ValueError
    | Some dt => milliseconds dt
    end.
Proof.
  unfold to_ms. rewrite slice_to_snoc.
  destruct (fromisoformat body) as [dt|]; [|reflexivity].
  now rewrite timestamp_replace_utc.
Qed.

(** The conversion of a value that went through the constructor returns. *)
Lemma milliseconds_returns (dt : datetime) :
  valid dt = true -> exists ms, milliseconds dt = ok ms.
Proof.
  intros Hvalid. apply scaled_quotient_returns.
  now apply valid_epoch_microseconds.
Qed.

(** [to_ms] returns on every string whose text before the last character
    [fromisoformat] accepts. *)
Lemma to_ms_returns (body : string) (c : ascii) (dt : datetime) :
  fromisoformat body = Some dt ->
  exists ms, to_ms (PStr (body ++ String c "")) = ok ms /\ milliseconds dt = ok ms.
Proof.
  intros Hparse. rewrite to_ms_snoc, Hparse.
  destruct (milliseconds_returns dt) as [ms Hms].
  - eapply fromisoformat_valid. exact Hparse.
  - now exists ms.
Qed.

(** C3. For a string that ends in the UTC designator, [to_ms] strips the
    designator, parses the rest as a naive date-time, reads it in UTC,
    multiplies the epoch-second float by 1000 and truncates: it returns an
    integer when the rest parses and raises when it does not.  Being a
    function it is deterministic.  Where the parser reads
    "2024-01-01T00:00:00.000000" as midnight of that day,
    [to_ms("2024-01-01T00:00:00.000000Z")] is 1704067200000. *)
Theorem to_ms_utc_designator :
  fromisoformat "2024-01-01T00:00:00.000000"
    = Some (mk_datetime 2024 1 1 0 0 0 0 None) ->
  (forall body,
     to_ms (PStr (body ++ "Z"))
     = match fromisoformat body with
       | None => raise ValueError
       | Some dt => milliseconds dt
       end)
  /\ (forall body dt,
        fromisoformat body = Some dt ->
        exists ms, to_ms (PStr (body ++ "Z")) = ok ms)
  /\ to_ms (PStr "2024-01-01T00:00:00.000000Z") = ok 1704067200000.
Proof.
  intros Hparse. split; [|split].
  - intros body. apply to_ms_snoc.
  - intros body dt Hbody.
    destruct (to_ms_returns body "Z"%char dt Hbody) as (ms & Hms & _).
    now exists ms.
  - change "2024-01-01T00:00:00.000000Z"
      with ("2024-01-01T00:00:00.000000" ++ "Z")%string.
    rewrite to_ms_snoc, Hparse. vm_compute. reflexivity.
Qed.

(** C10. [to_ms] removes the last character of a non-empty string without
    looking at it: the result is the conversion of the string without that
    character, read as a naive date-time in UTC, and no other last
    character would change it. *)
Theorem to_ms_drops_last_character (s : string) :
  (1 <= String.length s)%nat ->
  exists body c,
    s = (body ++ String c "")%string
    /\ to_ms (PStr s)
       = match fromisoformat body with
         | None => raise ValueError
         | Some dt => milliseconds dt
         end
    /\ forall c', to_ms (PStr (body ++ String c' "")) = to_ms (PStr s).
Proof.
  intros Hlen.
  destruct (string_snoc s) as (body & c & ->).
  - destruct s; [simpl in Hlen; lia | discriminate].
  - exists body, c. split; [reflexivity|]. split.
    + apply to_ms_snoc.
    + intros c'. now rewrite !to_ms_snoc.
Qed.

End Conversion.

(** The reference parser reads the example as the theorem asks. *)
Lemma to_ms_utc_designator_example :
  to_ms (R := Reference.runtime) (PStr "2024-01-01T00:00:00.000000Z")
  = ok 1704067200000.
Proof.
  apply (to_ms_utc_designator (R := Reference.runtime)).
  vm_compute. reflexivity.
Defined.

(** A timestamp that ends in a digit instead of the designator loses the
    digit. *)
Lemma to_ms_drops_last_character_example :
  exists body c,
    "2024-01-01T00:00:007" = (body ++ String c "")%string
    /\ to_ms (R := Reference.runtime) (PStr "2024-01-01T00:00:007")
       = match Reference.fromisoformat body with
         | None => raise ValueError
         | Some dt => milliseconds dt
         end
    /\ forall c', to_ms (R := Reference.runtime) (PStr (body ++ String c' ""))
                  = to_ms (R := Reference.runtime) (PStr "2024-01-01T00:00:007").
Proof.
  apply (to_ms_drops_last_character (R := Reference.runtime) "2024-01-01T00:00:007").
  simpl. lia.
Defined.

Section Polling.

Context {R : Runtime}.

Local Open Scope result_scope.

Lemma ws_recv_next (self : KrakenWebsocketAPI.t) (frame : string) :
  next_frame self frame -> ws_recv self = (ok frame, after_recv self).
Proof.
  unfold next_frame, ws_recv, after_recv, WebSocket.recv.
  destruct (WebSocket.inbound (_ws self)) as [|f rest]; simpl; intros H.
  - discriminate.
  - now injection H as ->.
Qed.

(** One call of [get_trades] takes one frame and decides on its content. *)
Lemma get_trades_next (self : KrakenWebsocketAPI.t) (frame : string) :
  next_frame self frame ->
  get_trades self
  = (if contains "heartbeat" frame then ok [] else parse_trades frame,
     after_recv self).
Proof.
  intros H. unfold get_trades, bind. rewrite (ws_recv_next _ _ H).
  unfold ok. now destruct (contains "heartbeat" frame).
Qed.

(** C2. A frame whose content contains the heartbeat marker, wherever it
    stands and whatever surrounds it, makes [get_trades] return the empty
    list without raising; the frame is consumed. *)
Theorem get_trades_heartbeat (self : KrakenWebsocketAPI.t) (frame pre post : string) :
  next_frame self frame ->
  frame = (pre ++ "heartbeat" ++ post)%string ->
  get_trades self = (ok [], after_recv self).
Proof.
  intros Hnext Hframe. rewrite (get_trades_next _ _ Hnext).
  replace (contains "heartbeat" frame) with true; [reflexivity|].
  symmetry. apply contains_spec. now exists pre, post.
Qed.

(** The loop appends to the list it was given. *)
Lemma for_trades_acc (items : list pyval) (acc : list Trade) :
  for_trades items acc
  = (trades <- for_trades items [] ;; ok (acc ++ trades)%list).
Proof.
  revert acc. induction items as [|item items IH]; intros acc; simpl.
  - now rewrite app_nil_r.
  - destruct (trade_of item) as [e|t]; simpl; [reflexivity|].
    rewrite (IH (acc ++ [t])%list), (IH [t]).
    destruct (for_trades items []) as [e|trades]; simpl; [reflexivity|].
    now rewrite <- app_assoc.
Qed.

(** The loop returns a list exactly when every element yields its record,
    and the list holds the records in the order of the elements. *)
Lemma for_trades_ok (items : list pyval) (trades : list Trade) :
  for_trades items [] = ok trades
  <-> Forall2 (fun item t => trade_of item = ok t) items trades.
Proof.
  revert trades. induction items as [|item items IH]; intros trades; simpl.
  - split; intros H.
    + injection H as <-. constructor.
    + now inversion H.
  - split; intros H.
    + destruct (trade_of item) as [e|t] eqn:Et; simpl in H; [discriminate|].
      rewrite for_trades_acc in H.
      destruct (for_trades items []) as [e|rest] eqn:Er; simpl in H; [discriminate|].
      injection H as <-. constructor; [exact Et|]. now apply IH.
    + inversion H as [|? t ? rest Ht Hrest]; subst.
      rewrite Ht. simpl. apply IH in Hrest. now rewrite for_trades_acc, Hrest.
Qed.

(** An element that raises makes the whole loop raise, whatever precedes
    and follows it. *)
Lemma for_trades_raises (items : list pyval) (acc : list Trade) :
  Exists (fun item => exists e, trade_of item = raise e) items ->
  exists e, for_trades items acc = raise e.
Proof.
  intros H. revert acc.
  induction H as [item items [e He] | item items _ IH]; intros acc; simpl.
  - rewrite He. now exists e.
  - destruct (trade_of item) as [e|t]; simpl; [now exists e|]. apply IH.
Qed.

(** A well-formed element yields the record that copies it. *)
Lemma trade_of_copies (element : pyval) (trade : Trade) :
  copies element trade -> trade_of element = ok trade.
Proof.
  intros (Hs & Hp & Hq & ts & Ht & Hms).
  unfold trade_of. rewrite Hs, Hp, Hq, Ht. cbn [rbind ok]. rewrite Hms.
  cbn [rbind ok]. unfold new_Trade. rewrite validate_str_str, !validate_float_float.
  now destruct trade.
Qed.

(** A record comes from validated fields of its element and from the
    converted timestamp. *)
Lemma trade_of_built_from (element : pyval) (trade : Trade) :
  trade_of element = ok trade -> built_from element trade.
Proof.
  unfold trade_of, built_from, new_Trade. intros H.
  destruct (subscript element "symbol") as [|symbol]; simpl in H; [discriminate|].
  destruct (subscript element "price") as [|price]; simpl in H; [discriminate|].
  destruct (subscript element "qty") as [|qty]; simpl in H; [discriminate|].
  destruct (subscript element "timestamp") as [|timestamp]; simpl in H; [discriminate|].
  destruct (to_ms timestamp) as [|ms] eqn:Ems; simpl in H; [discriminate|].
  destruct (validate_str symbol) as [s|] eqn:Es; [|discriminate].
  destruct (validate_float qty) as [q|] eqn:Eq; [|discriminate].
  destruct (validate_float price) as [p|] eqn:Ep; [|discriminate].
  injection H as <-. exists symbol, price, qty, timestamp. simpl.
  repeat split; assumption.
Qed.

(** An element without one of the four fields raises. *)
Lemma trade_of_missing_field (element : pyval) :
  missing_field element -> exists e, trade_of element = raise e.
Proof.
  intros (key & Hin & Hlacks). unfold trade_of.
  destruct (subscript element "symbol") as [e|symbol] eqn:E1; simpl; [now exists e|].
  destruct (subscript element "price") as [e|price] eqn:E2; simpl; [now exists e|].
  destruct (subscript element "qty") as [e|qty] eqn:E3; simpl; [now exists e|].
  destruct (subscript element "timestamp") as [e|timestamp] eqn:E4; simpl; [now exists e|].
  exfalso. simpl in Hin.
  destruct Hin as [<-|[<-|[<-|[<-|[]]]]]; eapply Hlacks; eassumption.
Qed.

(** Nothing raised while a frame is decoded is the transport's exception. *)
Lemma subscript_violation (v : pyval) (key : string) (e : exn) :
  subscript v key = raise e -> ProtocolViolation e = true.
Proof.
  unfold subscript. destruct v; try (intros [= <-]; reflexivity).
  destruct (dict_get d key); intros [= <-]. reflexivity.
Qed.

Lemma iterate_violation (v : pyval) (e : exn) :
  iterate v = raise e -> ProtocolViolation e = true.
Proof. destruct v; simpl; intros [= <-]; reflexivity. Qed.

Lemma to_ms_violation (v : pyval) (e : exn) :
  to_ms v = raise e -> ProtocolViolation e = true.
Proof.
  unfold to_ms. destruct v; try (intros [= <-]; reflexivity).
  destruct (fromisoformat _); [|intros [= <-]; reflexivity].
  destruct (timestamp _); [|intros [= <-]; reflexivity].
  destruct (float_mul _ _); simpl; intros [= <-]; reflexivity.
Qed.

(** The exception of a step that raised, traced to the lemma for that
    step. *)
Local Ltac raised_in lemma :=
  let E := fresh "E" in
  match goal with
  | |- context [rbind ?step _] =>
      destruct step eqn:E; cbn [rbind];
      [intros [= <-]; eapply lemma; exact E|]
  end.

Lemma trade_of_violation (element : pyval) (e : exn) :
  trade_of element = raise e -> ProtocolViolation e = true.
Proof.
  unfold trade_of, new_Trade.
  do 4 raised_in subscript_violation. raised_in to_ms_violation.
  repeat match goal with
         | |- context [match ?validated with Some _ => _ | None => _ end] =>
             destruct validated
         end;
    intros [= <-]; reflexivity.
Qed.

Lemma for_trades_violation (items : list pyval) (acc : list Trade) (e : exn) :
  for_trades items acc = raise e -> ProtocolViolation e = true.
Proof.
  revert acc. induction items as [|item items IH]; intros acc; simpl.
  - discriminate.
  - raised_in trade_of_violation. apply IH.
Qed.

Lemma parse_trades_violation (frame : string) (e : exn) :
  parse_trades frame = raise e -> ProtocolViolation e = true.
Proof.
  unfold parse_trades.
  destruct (json_loads frame) as [message|]; [|intros [= <-]; reflexivity].
  raised_in subscript_violation. raised_in iterate_violation.
  apply for_trades_violation.
Qed.

(** A [data] that is a collection without elements, list or not, gives
    the empty list. *)
Lemma parse_trades_no_elements (frame : string) (message data : pyval) :
  json_loads frame = Some message ->
  subscript message "data" = ok data ->
  iterate data = ok [] ->
  parse_trades frame = ok [].
Proof.
  intros Hjson Hdata Hiter. unfold parse_trades.
  rewrite Hjson, Hdata. cbn [rbind ok]. now rewrite Hiter.
Qed.

End Polling.

Section DataFrames.

Context {R : Runtime}.

Lemma well_formed_copies (elements : list pyval) :
  Forall well_formed elements -> exists trades, Forall2 copies elements trades.
Proof.
  induction 1 as [|element elements Hwf _ [trades IH]].
  - now exists [].
  - destruct Hwf as (symbol & price & qty & body & c & dt & Hs & Hp & Hq & Ht & Hdt).
    destruct (to_ms_returns body c dt Hdt) as (ms & Hms & _).
    exists (Trade.Trade symbol qty price ms :: trades).
    constructor; [|exact IH].
    repeat split; try assumption. now exists (body ++ String c "")%string.
Qed.

(** C1. A frame that is not a heartbeat and decodes to a message whose
    [data] is a list of N well-formed trade elements makes [get_trades]
    return exactly N records, in the order of the elements, each holding its
    element's symbol, price and qty and the converted timestamp. *)
Theorem get_trades_data_frame
  (self : KrakenWebsocketAPI.t) (frame : string) (message : pyval)
  (elements : list pyval) :
  next_frame self frame ->
  contains "heartbeat" frame = false ->
  json_loads frame = Some message ->
  subscript message "data" = ok (PList elements) ->
  Forall well_formed elements ->
  exists trades,
    get_trades self = (ok trades, after_recv self)
    /\ List.length trades = List.length elements
    /\ Forall2 copies elements trades.
Proof.
  intros Hnext Hbeat Hjson Hdata Hwf.
  destruct (well_formed_copies _ Hwf) as [trades Hcopies].
  exists trades. split; [|split].
  - rewrite (get_trades_next _ _ Hnext), Hbeat. f_equal.
    unfold parse_trades. rewrite Hjson, Hdata. cbn [rbind ok iterate].
    apply for_trades_ok.
    eapply Forall2_impl; [|exact Hcopies]. apply trade_of_copies.
  - symmetry. eapply Forall2_length. exact Hcopies.
  - exact Hcopies.
Qed.

End DataFrames.

Section Construction.

Context {R : Runtime}.

(** C7. The constructor connects to the fixed endpoint, sends one
    subscription request and nothing else, with [method] "subscribe" and
    [params] of channel "trade", symbol [[product_id]] and snapshot false,
    and takes two frames off the connection, so that the first
    [get_trades] is served from the third. *)
Theorem init_subscribes (product_id : string) (ack1 ack2 : string) (live : list string) :
  let request := subscription product_id in
  exists self,
    __init__ product_id (ack1 :: ack2 :: live) = ok self
    /\ WebSocket.url (_ws self) = "wss://ws.kraken.com/v2"%string
    /\ WebSocket.sent (_ws self) = [json_dumps request]
    /\ WebSocket.inbound (_ws self) = live
    /\ subscript request "method" = ok (PStr "subscribe")
    /\ (exists params,
          subscript request "params" = ok params
          /\ subscript params "channel" = ok (PStr "trade")
          /\ subscript params "symbol" = ok (PList [PStr product_id])
          /\ subscript params "snapshot" = ok (PBool false))
    /\ forall frame, hd_error live = Some frame ->
         get_trades self
         = (if contains "heartbeat" frame then ok [] else parse_trades frame,
            after_recv self).
Proof.
  intros request. eexists. split; [reflexivity|].
  repeat (split; [reflexivity|]). split.
  - eexists. repeat (split; [reflexivity|]). reflexivity.
  - intros frame Hframe. now apply get_trades_next.
Qed.

(** With fewer than two frames to take the constructor raises. *)
Lemma init_needs_two_frames (product_id : string) (frames : list string) :
  (List.length frames < 2)%nat ->
  __init__ product_id frames = raise WebSocketConnectionClosedException.
Proof.
  destruct frames as [|f1 [|f2 rest]]; simpl; intros H; try reflexivity; lia.
Qed.

Lemma init_product_id (product_id : string) (frames : list string)
  (self : KrakenWebsocketAPI.t) :
  __init__ product_id frames = ok self ->
  KrakenWebsocketAPI.product_id self = product_id.
Proof.
  destruct frames as [|f1 [|f2 rest]]; simpl; intros H; try discriminate.
  now injection H as <-.
Qed.

Lemma ws_recv_product_id (self : KrakenWebsocketAPI.t) :
  product_id (snd (ws_recv self)) = product_id self.
Proof.
  unfold ws_recv. now destruct (WebSocket.recv (_ws self)).
Qed.

Lemma get_trades_product_id (self : KrakenWebsocketAPI.t) :
  product_id (snd (get_trades self)) = product_id self.
Proof.
  unfold get_trades, bind.
  pose proof (ws_recv_product_id self) as H.
  destruct (ws_recv self) as [[e|frame] self']; simpl in *; [exact H|].
  now destruct (contains "heartbeat" frame).
Qed.

Lemma perform_product_id (self : KrakenWebsocketAPI.t) (op : operation) :
  product_id (perform self op) = product_id self.
Proof.
  destruct op; simpl; [apply get_trades_product_id | reflexivity | reflexivity].
Qed.

(** C9. The instrument a client is bound to is the constructor's argument,
    and stays so through any series of [get_trades], [is_done] and [to_ms]
    calls, raising or not. *)
Theorem product_id_fixed (product_id : string) (frames : list string)
  (self : KrakenWebsocketAPI.t) (ops : list operation) :
  __init__ product_id frames = ok self ->
  KrakenWebsocketAPI.product_id (lifetime self ops) = product_id.
Proof.
  intros Hinit. apply init_product_id in Hinit. unfold lifetime.
  revert self Hinit. induction ops as [|op ops IH]; intros self Hinit; simpl.
  - exact Hinit.
  - apply IH. now rewrite perform_product_id.
Qed.

End Construction.

(* ===================================================================== *)
(** * Properties of the ingestion loop *)
(* ===================================================================== *)

Import Main.

Section Ingestion.

Context {R : Runtime}.

(** The inner loop publishes every trade, in order, and cannot raise. *)
Lemma for_each_calls (topic : string) (trades : list Trade) (p : process) :
  for_each topic trades p
  = (ok tt,
     mk_process (kraken_api p)
       (calls p
        ++ map (fun trade =>
                  Produce topic (value_serializer (Trade.model_dump trade))
                          (key_serializer (Trade.product_id trade)))
               trades)).
Proof.
  revert p. induction trades as [|trade trades IH]; intros p; simpl.
  - rewrite app_nil_r. now destruct p.
  - unfold next, publish, emit. rewrite IH. simpl.
    now rewrite <- app_assoc.
Qed.

(** C5. A turn of the loop calls [get_trades] once, then publishes every
    trade it returned, each under its own [product_id] as key and with its
    serialized [model_dump] as value, in the order returned, and then
    sleeps one second, however many trades there were; the next turn starts
    after that. *)
Theorem iteration_calls (topic : string) (p : process)
  (trades : list Trade) (api' : KrakenWebsocketAPI.t) :
  get_trades (kraken_api p) = (ok trades, api') ->
  let p' :=
    mk_process api'
      (calls p
       ++ [Get_trades]
       ++ map (fun trade =>
                 Produce topic (value_serializer (Trade.model_dump trade))
                         (key_serializer (Trade.product_id trade)))
              trades
       ++ [Sleep 1]) in
  iteration topic p = (ok tt, p')
  /\ forall n, loop topic (S n) p = loop topic n p'.
Proof.
  intros Hpoll p'.
  assert (iteration topic p = (ok tt, p')) as Hturn.
  { unfold iteration, next at 1, poll. rewrite Hpoll.
    unfold ok at 1. unfold next. rewrite for_each_calls.
    unfold emit, p'. cbn [kraken_api calls]. now rewrite <- !app_assoc. }
  split; [exact Hturn|].
  intros n. cbn [loop]. unfold next at 1. now rewrite Hturn.
Qed.

(** A turn whose [get_trades] raises ends there: nothing is published,
    there is no sleep, and the exception leaves the loop. *)
Lemma iteration_raises (topic : string) (p : process) (e : exn)
  (api' : KrakenWebsocketAPI.t) :
  get_trades (kraken_api p) = (raise e, api') ->
  iteration topic p = (raise e, mk_process api' (calls p ++ [Get_trades])).
Proof.
  intros Hpoll. unfold iteration, next, poll. now rewrite Hpoll.
Qed.

Lemma loop_raises (topic : string) (n : nat) (p : process) (e : exn)
  (api' : KrakenWebsocketAPI.t) :
  get_trades (kraken_api p) = (raise e, api') ->
  loop topic (S n) p = (raise e, mk_process api' (calls p ++ [Get_trades])).
Proof.
  intros Hpoll. simpl. unfold next at 1.
  now rewrite (iteration_raises _ _ _ _ Hpoll).
Qed.

(** C4. A frame that is not a heartbeat and is malformed, because it is
    not valid structured data or because its [data] list has an element
    without one of the four fields, makes [get_trades] raise a protocol
    violation: no list of records is returned, whatever well-formed elements
    precede the bad one.  The exception leaves the ingestion loop, which has
    published nothing for the frame. *)
Theorem get_trades_malformed_frame (self : KrakenWebsocketAPI.t) (frame : string) :
  next_frame self frame ->
  contains "heartbeat" frame = false ->
  malformed frame ->
  exists e,
    get_trades self = (raise e, after_recv self)
    /\ ProtocolViolation e = true
    /\ forall topic done n,
         loop topic (S n) (mk_process self done)
         = (raise e, mk_process (after_recv self) (done ++ [Get_trades])).
Proof.
  intros Hnext Hbeat Hbad.
  assert (exists e, parse_trades frame = raise e) as [e He].
  { unfold parse_trades.
    destruct Hbad as [-> | message -> Hno | message data -> Hdata Hiter
                     | message data elements -> Hdata Hiter Hex].
    - now exists JSONDecodeError.
    - destruct (subscript message "data") as [e|data] eqn:E; [now exists e|].
      now elim (Hno data).
    - rewrite Hdata. cbn [rbind ok].
      destruct (iterate data) as [e|items] eqn:E; [now exists e|].
      now elim (Hiter items).
    - rewrite Hdata. cbn [rbind ok]. rewrite Hiter. cbn [rbind ok].
      apply for_trades_raises.
      eapply Exists_impl; [|exact Hex]. apply trade_of_missing_field. }
  assert (get_trades self = (raise e, after_recv self)) as Hget.
  { now rewrite (get_trades_next _ _ Hnext), Hbeat, He. }
  exists e. split; [exact Hget|]. split.
  - eapply parse_trades_violation. exact He.
  - intros topic done n. now apply loop_raises.
Qed.

End Ingestion.

(* ===================================================================== *)
(** * The ranges of a Trade *)
(* ===================================================================== *)

Section Ranges.

Context {R : Runtime}.

(** Rounding keeps the sign it is given. *)
Lemma binary_round_aux_sign (s : bool) (m e : Z) (l : location) :
  match binary_round_aux prec emax s m e l with
  | S754_zero s' | S754_infinity s' | S754_finite s' _ _ => s' = s
  | S754_nan => True
  end.
Proof.
  unfold binary_round_aux.
  destruct (shr_fexp prec emax m e l) as [mrs e'].
  destruct (shr_fexp prec emax _ e' loc_Exact) as [mrs' e''].
  destruct (shr_m mrs'); [reflexivity| |exact I].
  now destruct (e'' <=? emax - prec).
Qed.

(** Truncating a float that is not negative gives an integer that is not
    negative. *)
Lemma int_of_float_nonneg (x : float) (z : Z) :
  match x with
  | S754_zero s | S754_infinity s | S754_finite s _ _ => s = false
  | S754_nan => True
  end ->
  int_of_float x = ok z -> 0 <= z.
Proof.
  destruct x as [s|s| |s m e]; simpl; intros Hs H; try discriminate.
  - injection H as <-. lia.
  - subst s. injection H as <-. simpl. apply Z.shiftl_nonneg. lia.
Qed.

(** A reading at or after the epoch converts to a count of milliseconds
    that is not negative. *)
Lemma milliseconds_nonneg (dt : datetime) (z : Z) :
  0 <= epoch_microseconds dt -> milliseconds dt = ok z -> 0 <= z.
Proof.
  unfold milliseconds, epoch_seconds, int_truediv, float_mul.
  intros Hus. apply int_of_float_nonneg.
  replace (float_of_int 1000) with (S754_finite false 8796093022208000 (-43))
    by (vm_compute; reflexivity).
  change (exact 1000000) with (S754_finite false 1000000 0).
  destruct (epoch_microseconds dt) as [|us|us]; [reflexivity| |lia].
  unfold exact, SFdiv.
  destruct (SFdiv_core_binary prec emax (Z.pos us) 0 1000000 0) as [[mz ez] lz].
  pose proof (binary_round_aux_sign (xorb false false) mz ez lz) as Hdiv.
  destruct (binary_round_aux prec emax (xorb false false) mz ez lz)
    as [s|s| |s m e]; unfold SFmul.
  - now subst s.
  - now subst s.
  - exact I.
  - subst s. apply (binary_round_aux_sign (xorb (xorb false false) false)).
Qed.

(** A record built from an element within the ranges is within them. *)
Lemma built_from_in_range (element : pyval) (trade : Trade) :
  built_from element trade -> element_in_range element -> in_range trade = true.
Proof.
  intros (symbol & price & qty & timestamp & Hs & Hp & Hq & Ht & Hvs & Hvp & Hvq & Hms).
  intros (symbol' & price' & qty' & ts & dt
          & Hs' & Hne & Hp' & Hpos & Hq' & Hqpos & Ht' & Hparse & Hus).
  rewrite Hs' in Hs. injection Hs as <-.
  rewrite Hp' in Hp. injection Hp as <-.
  rewrite Hq' in Hq. injection Hq as <-.
  rewrite Ht' in Ht. injection Ht as <-.
  rewrite validate_str_str in Hvs. injection Hvs as Hvs.
  rewrite validate_float_float in Hvp. injection Hvp as Hvp.
  rewrite validate_float_float in Hvq. injection Hvq as Hvq.
  unfold to_ms in Hms. rewrite Hparse, timestamp_replace_utc in Hms.
  pose proof (milliseconds_nonneg dt _ Hus Hms) as Hnonneg.
  unfold in_range. rewrite <- Hvs, <- Hvp, <- Hvq, Hpos, Hqpos.
  replace (symbol' =? "")%string with false
    by (symmetry; now apply String.eqb_neq).
  simpl. now apply Z.leb_le.
Qed.

(** C6, as the code has it. The records [get_trades] returns are those of
    the frame it received: none for a heartbeat, and otherwise one for each
    element of the frame's [data], in the order of the elements, each built
    from its own element.  Its [product_id] is the string, and its [price]
    and [quantity] the floats, that validation makes of the element's
    symbol, price and qty, and its [timestamp_ms] the integer [to_ms] makes
    of the timestamp.  A record is within the ranges of the data model
    whenever its element is: a symbol that is not empty, a positive price
    and qty, a timestamp at or after 1970-01-01T00:00:00.  Nothing else
    keeps a record within them. *)
Theorem get_trades_records (self self' : KrakenWebsocketAPI.t) (trades : list Trade) :
  get_trades self = (ok trades, self') ->
  exists frame,
    next_frame self frame
    /\ self' = after_recv self
    /\ ((contains "heartbeat" frame = true /\ trades = [])
        \/ (contains "heartbeat" frame = false
            /\ exists message data elements,
                 json_loads frame = Some message
                 /\ subscript message "data" = ok data
                 /\ iterate data = ok elements
                 /\ Forall2 (fun element trade =>
                               built_from element trade
                               /\ (element_in_range element -> in_range trade = true))
                            elements trades)).
Proof.
  intros Hget.
  destruct (WebSocket.inbound (_ws self)) as [|frame rest] eqn:Hin.
  { destruct self as [pid [address frames out]]. cbn in Hin. subst frames.
    discriminate Hget. }
  assert (next_frame self frame) as Hnext by (unfold next_frame; now rewrite Hin).
  exists frame. split; [exact Hnext|].
  rewrite (get_trades_next _ _ Hnext) in Hget.
  injection Hget as Hparse <-. split; [reflexivity|].
  destruct (contains "heartbeat" frame).
  - left. split; [reflexivity|]. now injection Hparse as <-.
  - right. split; [reflexivity|]. unfold parse_trades in Hparse.
    destruct (json_loads frame) as [message|]; [|discriminate].
    destruct (subscript message "data") as [|data] eqn:Hdata;
      cbn [rbind] in Hparse; [discriminate|].
    destruct (iterate data) as [|elements] eqn:Hiter;
      cbn [rbind] in Hparse; [discriminate|].
    exists message, data, elements.
    split; [reflexivity|]. split; [exact Hdata|]. split; [exact Hiter|].
    apply for_trades_ok in Hparse.
    eapply Forall2_impl; [|exact Hparse]. intros element trade Ht.
    pose proof (trade_of_built_from _ _ Ht) as Hb.
    split; [exact Hb|]. now apply built_from_in_range.
Qed.

(** What [main.py] hands to the topic's serializer holds the four fields of
    the record as they are, and validating them gives the record back.  The
    bytes the serializer makes of it, and their reading by a consumer, are
    the Kafka client library's. *)
Lemma model_dump_fields (trade : Trade) :
  let value := Trade.model_dump trade in
  subscript value "product_id" = ok (PStr (Trade.product_id trade))
  /\ subscript value "quantity" = ok (PFloat (Trade.quantity trade))
  /\ subscript value "price" = ok (PFloat (Trade.price trade))
  /\ subscript value "timestamp_ms" = ok (PInt (Trade.timestamp_ms trade))
  /\ new_Trade (PStr (Trade.product_id trade)) (PFloat (Trade.price trade))
               (PFloat (Trade.quantity trade)) (Trade.timestamp_ms trade)
     = ok trade.
Proof.
  repeat (split; [reflexivity|]).
  unfold new_Trade. rewrite validate_str_str, !validate_float_float.
  now destruct trade.
Qed.

End Ranges.

(* ===================================================================== *)
(** * Further properties of the feed client *)
(* ===================================================================== *)

Import Runs.

Section Connection.

Context {R : Runtime}.

(** What a call of [get_trades] does to the connection. *)
Lemma get_trades_connection (self : KrakenWebsocketAPI.t) :
  match WebSocket.inbound (_ws self) with
  | [] => get_trades self = (raise WebSocketConnectionClosedException, self)
  | frame :: rest =>
      snd (get_trades self)
      = mk (product_id self)
           (WebSocket.mk (WebSocket.url (_ws self)) rest (WebSocket.sent (_ws self)))
  end.
Proof.
  destruct self as [pid [address frames out]]. cbn [_ws WebSocket.inbound].
  destruct frames as [|frame rest].
  - reflexivity.
  - unfold get_trades, bind, ws_recv, WebSocket.recv. cbn.
    now destruct (contains "heartbeat" frame).
Qed.

(** X1. A call of [get_trades] takes exactly one frame off the connection,
    the oldest, whether it returns or raises, and sends nothing; with no
    frame left it raises the transport's exception and leaves the client as
    it was. *)
Theorem get_trades_takes_one_frame (self : KrakenWebsocketAPI.t) :
  (WebSocket.inbound (_ws self) = [] ->
   get_trades self = (raise WebSocketConnectionClosedException, self))
  /\ (forall frame rest,
        WebSocket.inbound (_ws self) = frame :: rest ->
        snd (get_trades self)
        = mk (product_id self)
             (WebSocket.mk (WebSocket.url (_ws self)) rest
                           (WebSocket.sent (_ws self)))).
Proof.
  pose proof (get_trades_connection self) as H. split.
  - intros E. now rewrite E in H.
  - intros frame rest E. now rewrite E in H.
Qed.

Lemma perform_connection (self : KrakenWebsocketAPI.t) (op : operation) :
  WebSocket.url (_ws (perform self op)) = WebSocket.url (_ws self)
  /\ WebSocket.sent (_ws (perform self op)) = WebSocket.sent (_ws self)
  /\ WebSocket.inbound (_ws (perform self op))
     = match op with
       | Call_get_trades => tl (WebSocket.inbound (_ws self))
       | _ => WebSocket.inbound (_ws self)
       end.
Proof.
  destruct op; cbn [perform]; try (repeat split; reflexivity).
  pose proof (get_trades_connection self) as H.
  destruct (WebSocket.inbound (_ws self)) as [|frame rest] eqn:E.
  - rewrite H. cbn [snd]. now rewrite E.
  - rewrite H. cbn. repeat split; reflexivity.
Qed.

Lemma skipn_tl {A} (k : nat) (l : list A) : skipn k (tl l) = skipn (S k) l.
Proof. destruct l; [now destruct k|reflexivity]. Qed.

(** X2. Through any series of [get_trades], [is_done] and [to_ms] calls a
    client sends nothing more than it had sent, stays on its endpoint, and
    has consumed the frames of its connection in arrival order, one for
    each call of [get_trades] and none for the other calls. *)
Theorem lifetime_connection (self : KrakenWebsocketAPI.t) (ops : list operation) :
  let ws := _ws (lifetime self ops) in
  WebSocket.url ws = WebSocket.url (_ws self)
  /\ WebSocket.sent ws = WebSocket.sent (_ws self)
  /\ WebSocket.inbound ws = skipn (polls_among ops) (WebSocket.inbound (_ws self)).
Proof.
  unfold lifetime. revert self.
  induction ops as [|op ops IH]; intros self; cbn [fold_left].
  - repeat split; reflexivity.
  - destruct (IH (perform self op)) as (Hurl & Hsent & Hin).
    destruct (perform_connection self op) as (Hurl1 & Hsent1 & Hin1).
    cbv zeta. rewrite Hurl, Hsent, Hin, Hurl1, Hsent1, Hin1.
    repeat split; try reflexivity.
    destruct op; cbn [polls_among filter List.length]; try reflexivity.
    apply skipn_tl.
Qed.

(** X3. [get_trades] does not look at the instrument the client was
    constructed for: two clients on the same connection get the same
    result, whatever symbols the frame carries. *)
Theorem get_trades_ignores_product_id (pid1 pid2 : string) (ws : WebSocket.t) :
  fst (get_trades (mk pid1 ws)) = fst (get_trades (mk pid2 ws))
  /\ _ws (snd (get_trades (mk pid1 ws))) = _ws (snd (get_trades (mk pid2 ws))).
Proof.
  unfold get_trades, bind, ws_recv. cbn [_ws product_id].
  destruct (WebSocket.recv ws) as [[e|frame] ws'].
  - split; reflexivity.
  - destruct (contains "heartbeat" frame); split; reflexivity.
Qed.

End Connection.

Section Timestamps.

Context {R : Runtime}.

(** [to_ms] on any string, from the text before its last character. *)
Lemma to_ms_string (s : string) :
  to_ms (PStr s)
  = match fromisoformat (slice_to s (-1)) with
    | None => raise ValueError
    | Some dt => milliseconds dt
    end.
Proof.
  unfold to_ms. destruct (fromisoformat _) as [dt|]; [|reflexivity].
  now rewrite timestamp_replace_utc.
Qed.

(** A string whose text before the last character parses converts. *)
Lemma to_ms_string_returns (s : string) (dt : datetime) :
  fromisoformat (slice_to s (-1)) = Some dt ->
  exists ms, to_ms (PStr s) = ok ms /\ milliseconds dt = ok ms.
Proof.
  intros Hparse. rewrite to_ms_string, Hparse.
  destruct (milliseconds_returns dt) as [ms Hms].
  - eapply fromisoformat_valid. exact Hparse.
  - now exists ms.
Qed.

(** X4. [to_ms] has three outcomes and no other: a value that is not a
    string raises [TypeError]; a string whose text before the last character
    the parser refuses raises [ValueError]; any other string returns an
    integer.  The truncation never overflows. *)
Theorem to_ms_outcome (timestamp : pyval) :
  match timestamp with
  | PStr s =>
      match fromisoformat (slice_to s (-1)) with
      | Some dt => exists ms, to_ms timestamp = ok ms /\ milliseconds dt = ok ms
      | None => to_ms timestamp = raise ValueError
      end
  | _ => to_ms timestamp = raise TypeError
  end.
Proof.
  destruct timestamp as [| | | |s| |]; try reflexivity.
  destruct (fromisoformat (slice_to s (-1))) as [dt|] eqn:Hparse.
  - now apply to_ms_string_returns.
  - now rewrite to_ms_string, Hparse.
Qed.

(** The conversion reads the wall-clock fields only. *)
Lemma milliseconds_wall_clock (dt1 dt2 : datetime) :
  replace_tzinfo dt1 None = replace_tzinfo dt2 None ->
  milliseconds dt1 = milliseconds dt2.
Proof.
  destruct dt1, dt2. unfold replace_tzinfo. cbn. intros H.
  injection H as -> -> -> -> -> -> ->. reflexivity.
Qed.

(** X5. An offset in the timestamp is dropped, not applied: two strings
    whose date and time fields read the same convert to the same integer,
    whatever offsets they carry. *)
Theorem to_ms_drops_offset (s1 s2 : string) (dt1 dt2 : datetime) :
  fromisoformat (slice_to s1 (-1)) = Some dt1 ->
  fromisoformat (slice_to s2 (-1)) = Some dt2 ->
  replace_tzinfo dt1 None = replace_tzinfo dt2 None ->
  to_ms (PStr s1) = to_ms (PStr s2).
Proof.
  intros H1 H2 Hsame. rewrite !to_ms_string, H1, H2.
  now apply milliseconds_wall_clock.
Qed.

(** A reading at or before the epoch converts to a count that is not
    positive. *)
Lemma milliseconds_nonpos (dt : datetime) (z : Z) :
  epoch_microseconds dt <= 0 -> milliseconds dt = ok z -> z <= 0.
Proof.
  unfold milliseconds, epoch_seconds, int_truediv, float_mul.
  replace (float_of_int 1000) with (S754_finite false 8796093022208000 (-43))
    by (vm_compute; reflexivity).
  change (exact 1000000) with (S754_finite false 1000000 0).
  intros Hus.
  destruct (epoch_microseconds dt) as [|us|us]; [|lia|].
  - intros H. injection H as <-. lia.
  - unfold exact, SFdiv.
    destruct (SFdiv_core_binary prec emax (Z.pos us) 0 1000000 0) as [[mz ez] lz].
    pose proof (binary_round_aux_sign (xorb true false) mz ez lz) as Hdiv.
    destruct (binary_round_aux prec emax (xorb true false) mz ez lz)
      as [s|s| |s m e]; unfold SFmul; try discriminate.
    + intros H. injection H as <-. lia.
    + subst s.
      pose proof (binary_round_aux_sign (xorb (xorb true false) false)
                    (Zpos (m * 8796093022208000)) (e + -43) loc_Exact) as Hmul.
      destruct (binary_round_aux prec emax (xorb (xorb true false) false)
                  (Zpos (m * 8796093022208000)) (e + -43) loc_Exact)
        as [s'|s'| |s' m' e']; try discriminate.
      * intros H. injection H as <-. lia.
      * subst s'. cbn [int_of_float xorb cond_Zopp]. intros H. injection H as <-.
        pose proof (Z.shiftl_nonneg (Zpos m') e'). lia.
Qed.

(** X6. The sign of the result follows the side of the epoch the
    timestamp reads on: not negative from 1970-01-01T00:00:00 on, not
    positive up to it. *)
Theorem to_ms_sign (s : string) (dt : datetime) (ms : Z) :
  fromisoformat (slice_to s (-1)) = Some dt ->
  to_ms (PStr s) = ok ms ->
  (0 <= epoch_microseconds dt -> 0 <= ms)
  /\ (epoch_microseconds dt <= 0 -> ms <= 0).
Proof.
  intros Hparse. rewrite to_ms_string, Hparse. intros Hms. split; intros Hus.
  - eapply milliseconds_nonneg; eassumption.
  - eapply milliseconds_nonpos; eassumption.
Qed.

End Timestamps.
Section Accuracy.

(** Shifting a mantissa right [n] times divides it by [2 ^ n]. *)
Lemma shr_1_div2 (mrs : shr_record) :
  0 <= shr_m mrs -> shr_m (shr_1 mrs) = shr_m mrs / 2.
Proof.
  destruct mrs as [m r s]. cbn [shr_m]. intros Hm.
  destruct m as [|[p|p|]|p]; cbn [shr_1 shr_m].
  - reflexivity.
  - rewrite Pos2Z.inj_xI. apply Z.div_unique with (r := 1); lia.
  - rewrite Pos2Z.inj_xO. apply Z.div_unique with (r := 0); lia.
  - reflexivity.
  - lia.
Qed.

Lemma iter_pos_shr_1_div (n : positive) (mrs : shr_record) :
  0 <= shr_m mrs ->
  shr_m (iter_pos shr_1 n mrs) = shr_m mrs / 2 ^ Zpos n.
Proof.
  revert mrs. induction n as [n IH|n IH|]; intros mrs Hm; cbn [iter_pos].
  - pose proof (iter_pos_shr_1 1 mrs Hm) as H1. cbn [iter_pos] in H1.
    pose proof (iter_pos_shr_1 n (shr_1 mrs) (proj1 H1)) as H2.
    rewrite IH by apply H2. rewrite IH by apply H1. rewrite shr_1_div2 by exact Hm.
    rewrite !Z.div_div by (try apply Z.pow_pos_nonneg; lia).
    f_equal. rewrite Pos2Z.inj_xI, <- !Z.pow_add_r by lia.
    change 2 with (2 ^ 1) at 1. rewrite <- Z.pow_add_r by lia. f_equal. lia.
  - pose proof (iter_pos_shr_1 n mrs Hm) as H2.
    rewrite IH by apply H2. rewrite IH by exact Hm.
    rewrite !Z.div_div by (try apply Z.pow_pos_nonneg; lia).
    f_equal. rewrite Pos2Z.inj_xO, <- !Z.pow_add_r by lia. f_equal. lia.
  - rewrite shr_1_div2 by exact Hm. reflexivity.
Qed.

(** The shift to the format's exponent, by its amount. *)
Lemma shr_fexp_div (m e : Z) (l : location) :
  0 <= m ->
  let n := Z.max 0 (fexp prec emax (Zdigits2 m + e) - e) in
  let '(mrs, e') := shr_fexp prec emax m e l in
  shr_m mrs = m / 2 ^ n /\ e' = e + n.
Proof.
  intros Hm. unfold shr_fexp, shr.
  destruct (fexp prec emax (Zdigits2 m + e) - e) as [|n|n] eqn:En; cbv zeta.
  - rewrite shr_record_of_loc_m. cbn. rewrite Z.div_1_r. split; lia.
  - rewrite iter_pos_shr_1_div by (rewrite shr_record_of_loc_m; lia).
    rewrite shr_record_of_loc_m.
    replace (Z.max 0 (Z.pos n)) with (Z.pos n) by lia. split; lia.
  - rewrite shr_record_of_loc_m.
    replace (Z.max 0 (Z.neg n)) with 0 by lia. cbn. rewrite Z.div_1_r. split; lia.
Qed.

Lemma Zdigits2_div_pow2 (m n : Z) :
  0 <= m -> 0 <= n -> Zdigits2 (m / 2 ^ n) = Z.max 0 (Zdigits2 m - n).
Proof.
  intros Hm Hn.
  destruct (Z.eq_dec m 0) as [->|Hm0].
  { rewrite Z.div_0_l by (apply Z.pow_nonzero; lia). cbn. lia. }
  rewrite <- Z.shiftr_div_pow2 by lia.
  destruct (Z.eq_dec (Z.shiftr m n) 0) as [H0|H0].
  - rewrite H0. cbn.
    apply Z.shiftr_eq_0_iff in H0 as [H0|[_ H0]]; [lia|].
    rewrite Zdigits2_log2 by lia. lia.
  - assert (0 < Z.shiftr m n).
    { pose proof (Z.shiftr_nonneg m n). lia. }
    rewrite !Zdigits2_log2 by lia.
    rewrite Z.log2_shiftr by lia.
    assert (n <= Z.log2 m); [|lia].
    destruct (Z_lt_le_dec (Z.log2 m) n) as [Hlt|Hle]; [|exact Hle].
    exfalso. apply H0. apply Z.shiftr_eq_0; lia.
Qed.

(** Rounding to binary64 moves a mantissa by less than two units of the
    last place kept, and keeps all but the bits beyond the 53rd (one more
    when the rounding carries). *)
Lemma binary_round_aux_value (s : bool) (m e : Z) (l : location) :
  0 <= m -> -1074 <= e <= 0 -> Zdigits2 m + e <= 1000 ->
  exists m' e',
    (binary_round_aux prec emax s m e l = S754_zero s /\ m' = 0
     \/ exists p, binary_round_aux prec emax s m e l = S754_finite s p e'
                  /\ m' = Zpos p)
    /\ e <= e' <= Z.max (e + 1) (Zdigits2 m + e - 52)
    /\ (m' - 1) * 2 ^ (e' - e) <= m
    /\ m + 1 <= (m' + 2) * 2 ^ (e' - e).
Proof.
  intros Hm He Hd. unfold binary_round_aux.
  pose proof (shr_fexp_div m e l Hm) as H1. cbv zeta in H1.
  set (n1 := Z.max 0 (fexp prec emax (Zdigits2 m + e) - e)) in *.
  destruct (shr_fexp prec emax m e l) as [mrs e1]. destruct H1 as [Hm1 He1].
  set (m1 := shr_m mrs) in *.
  set (m2 := round_nearest_even m1 (loc_of_shr_record mrs)).
  assert (0 <= n1) as Hn1 by (unfold n1; lia).
  assert (0 < 2 ^ n1) as Hp1 by (apply Z.pow_pos_nonneg; lia).
  assert (0 <= m1) as Hm1pos by (rewrite Hm1; apply Z.div_pos; lia).
  pose proof (round_nearest_even_bounds m1 (loc_of_shr_record mrs) Hm1pos) as Hr.
  fold m2 in Hr.
  pose proof (shr_fexp_div m2 e1 loc_Exact ltac:(lia)) as H2. cbv zeta in H2.
  set (n2 := Z.max 0 (fexp prec emax (Zdigits2 m2 + e1) - e1)) in *.
  destruct (shr_fexp prec emax m2 e1 loc_Exact) as [mrs' e2]. destruct H2 as [Hm3 He2].
  set (m3 := shr_m mrs') in *.
  assert (0 <= n2) as Hn2 by (unfold n2; lia).
  assert (0 < 2 ^ n2) as Hp2 by (apply Z.pow_pos_nonneg; lia).
  assert (0 <= m3) as Hm3pos by (rewrite Hm3; apply Z.div_pos; lia).
  pose proof (Zdigits2_nonneg m) as Hdm.
  (* the digits after the first shift, and the second shift *)
  assert (Zdigits2 m1 = Z.max 0 (Zdigits2 m - n1)) as Hd1
    by (rewrite Hm1; apply Zdigits2_div_pow2; lia).
  assert (Zdigits2 m2 <= Zdigits2 m1 + 1) as Hd2.
  { pose proof (Zdigits2_le m2 (m1 + 1) ltac:(lia)).
    pose proof (Zdigits2_succ m1 Hm1pos). lia. }
  assert (n2 <= 1) as Hn2'.
  { unfold n2, n1 in *. unfold fexp, emin, emax, prec in *. lia. }
  assert (e1 = Z.max e (Zdigits2 m + e - 53)) as He1'.
  { unfold n1 in *. unfold fexp, emin, emax, prec in *. lia. }
  (* the values *)
  pose proof (Z.mul_div_le m (2 ^ n1) Hp1) as Hlo1.
  pose proof (Z.mul_succ_div_gt m (2 ^ n1) Hp1) as Hhi1.
  rewrite <- Hm1 in Hlo1, Hhi1.
  pose proof (Z.mul_div_le m2 (2 ^ n2) Hp2) as Hlo2.
  pose proof (Z.mul_succ_div_gt m2 (2 ^ n2) Hp2) as Hhi2.
  rewrite <- Hm3 in Hlo2, Hhi2.
  assert (2 ^ (e2 - e) = 2 ^ n1 * 2 ^ n2) as Hpow.
  { rewrite <- Z.pow_add_r by lia. f_equal. lia. }
  exists m3, e2.
  split; [|split; [lia|rewrite Hpow; split; nia]].
  destruct m3 as [|p|p] eqn:Em3; [now left| |lia].
  right. exists p. split; [|reflexivity].
  replace (e2 <=? emax - prec) with true; [reflexivity|].
  symmetry. apply Z.leb_le. unfold emax, prec. lia.
Qed.

(** The quotient and exponent the division hands to rounding, for a
    dividend below [2 ^ 58] and the divisor [10 ^ 6]. *)
Lemma SFdiv_core_binary_value (p : positive) :
  Zpos p < 2 ^ 58 ->
  let '(q, e, _) := SFdiv_core_binary prec emax (Zpos p) 0 1000000 0 in
  let sft := 73 - Zdigits2 (Zpos p) in
  e = - sft
  /\ 15 <= sft <= 72
  /\ 0 <= q
  /\ q * 1000000 <= Zpos p * 2 ^ sft < (q + 1) * 1000000
  /\ Zdigits2 q <= 54.
Proof.
  intros Hp. unfold SFdiv_core_binary.
  assert (1 <= Zdigits2 (Zpos p) <= 58) as Hd.
  { rewrite Zdigits2_log2 by lia.
    pose proof (Z.log2_nonneg (Zpos p)).
    pose proof (proj1 (Z.log2_lt_pow2 (Zpos p) 58 ltac:(lia)) Hp). lia. }
  change (Zdigits2 1000000) with 20.
  set (d := Zdigits2 (Zpos p)) in *.
  replace (Z.min (fexp prec emax (d + 0 - (20 + 0))) (0 - 0)) with (d - 73)
    by (unfold fexp, emin, emax, prec; lia).
  replace (0 - 0 - (d - 73)) with (73 - d) by lia.
  destruct (73 - d) as [|sft|sft] eqn:Es; try lia.
  rewrite <- Es. rewrite Z.shiftl_mul_pow2 by lia.
  set (m := Zpos p * 2 ^ (73 - d)).
  assert (0 < 2 ^ (73 - d)) as Hpow by (apply Z.pow_pos_nonneg; lia).
  assert (0 < m) as Hm by (unfold m; nia).
  pose proof (Z.div_eucl_eq m 1000000 ltac:(lia)) as Hdiv.
  pose proof (Z.mod_pos_bound m 1000000 ltac:(lia)) as Hmod.
  unfold Z.modulo in Hmod.
  destruct (Z.div_eucl m 1000000) as [q r]. cbv zeta.
  assert (0 <= q) as Hq by nia.
  split; [lia|]. split; [lia|]. split; [exact Hq|]. split; [lia|].
  assert (m < 2 ^ 73) as Hm73.
  { unfold m.
    assert (Zpos p < 2 ^ d) as Hpd.
    { unfold d. rewrite Zdigits2_log2 by lia.
      apply Z.log2_lt_pow2; lia. }
    replace (2 ^ 73) with (2 ^ d * 2 ^ (73 - d))
      by (rewrite <- Z.pow_add_r by lia; f_equal; lia).
    nia. }
  destruct (Z.eq_dec q 0) as [->|Hq0]; [cbn; lia|].
  rewrite Zdigits2_log2 by lia.
  assert (q < 2 ^ 54) as Hq54.
  { change (2 ^ 73) with (2 ^ 54 * 524288) in Hm73. nia. }
  pose proof (proj1 (Z.log2_lt_pow2 q 54 ltac:(lia)) Hq54). lia.
Qed.

(** The arithmetic of the two roundings and the truncation: [q] is the
    quotient of [p * (A * N)] by [10 ^ 6], [mx] is [q / N] rounded, [my] is
    [mx * 1000 * 2 ^ 43 / N'] rounded, and [k] is [my / B] truncated. *)
Lemma two_roundings_within_one (p q mx my N A N' B k : Z) :
  0 < p -> 0 <= q -> 0 <= mx -> 0 <= my ->
  0 < N -> 8192 <= A -> 0 < N' -> 4 <= B ->
  q * 1000000 <= p * (A * N) < (q + 1) * 1000000 ->
  (mx - 1) * N <= q -> q + 1 <= (mx + 2) * N ->
  B * N' = A * 8796093022208 ->
  (my - 1) * N' <= mx * 8796093022208000 ->
  mx * 8796093022208000 + 1 <= (my + 2) * N' ->
  k = my / B ->
  p / 1000 - 1 <= k <= p / 1000 + 1.
Proof.
  intros Hp Hq Hmx Hmy HN HA HN' HB [Hq1 Hq2] Hx1 Hx2 HT Hy1 Hy2 ->.
  pose proof (Z.div_mod my B ltac:(lia)) as Hk.
  pose proof (Z.mod_pos_bound my B ltac:(lia)) as Hkr.
  pose proof (Z.div_mod p 1000 ltac:(lia)) as Hd.
  pose proof (Z.mod_pos_bound p 1000 ltac:(lia)) as Hdr.
  set (k := my / B) in *. set (d := p / 1000) in *.
  set (T := A * 8796093022208) in *.
  assert (4 * N' <= T) as HN'T by nia.
  assert (1000000 * 8796093022208 <= 123 * T) as HcT by (unfold T; lia).
  assert (0 < T) as HT0 by (unfold T; lia).
  split.
  - assert (p * A < (mx + 2) * 1000000) as Hlow.
    { apply Z.mul_lt_mono_pos_r with (p := N); [lia|]. nia. }
    assert (mx * 8796093022208000 + 1 - N' <= (k + 1) * T) as Hk1.
    { rewrite <- HT. nia. }
    assert (p * T - 2000000 * 8796093022208 - 1000 * N' <= 1000 * (k + 1) * T) as Hk2.
    { unfold T in *. nia. }
    assert (p * T - 496 * T <= 1000 * (k + 1) * T) as Hk3 by nia.
    assert (p - 496 <= 1000 * (k + 1)) as Hk4.
    { apply Z.mul_le_mono_pos_r with (p := T); [lia|]. lia. }
    lia.
  - assert (mx * 1000000 <= p * A + 1000000) as Hup.
    { apply Z.mul_le_mono_pos_r with (p := N); [lia|]. nia. }
    assert (k * T <= mx * 8796093022208000 + N') as Hk1.
    { rewrite <- HT. nia. }
    assert (1000 * k * T <= p * T + 1000000 * 8796093022208 + 1000 * N') as Hk2.
    { unfold T in *. nia. }
    assert (1000 * k * T <= (p + 373) * T) as Hk3 by nia.
    assert (1000 * k <= p + 373) as Hk4.
    { apply Z.mul_le_mono_pos_r with (p := T); [lia|]. lia. }
    lia.
Qed.

(** [int(a / 10 ** 6 * 1000)] for an int [a] below [2 ^ 58] in absolute
    value is within one of [a] divided by 1000. *)
Lemma scaled_quotient_within_one (s : bool) (p : positive) :
  Zpos p < 2 ^ 58 ->
  exists k,
    int_of_float
      (float_mul (SFdiv prec emax (S754_finite s p 0) (S754_finite false 1000000 0))
                 (S754_finite false 8796093022208000 (-43)))
    = ok (cond_Zopp s k)
    /\ Zpos p / 1000 - 1 <= k <= Zpos p / 1000 + 1.
Proof.
  intros Hp. pose proof (SFdiv_core_binary_value p Hp) as Hc.
  unfold float_mul, SFdiv.
  destruct (SFdiv_core_binary prec emax (Zpos p) 0 1000000 0) as [[q e1] l].
  cbv zeta in Hc. destruct Hc as (He1 & Hsft & Hq & Hval & Hdq).
  set (sft := 73 - Zdigits2 (Zpos p)) in *.
  rewrite xorb_false_r.
  destruct (binary_round_aux_value s q e1 l) as (mx & ex & Hx & Hex & Hx1 & Hx2);
    [lia | lia | lia |].
  assert (0 <= ex - e1 <= 2) as Hn by lia.
  set (N := 2 ^ (ex - e1)) in *. set (A := 2 ^ (- ex)).
  assert (0 < N) as HN by (apply Z.pow_pos_nonneg; lia).
  assert (8192 <= A) as HA.
  { change 8192 with (2 ^ 13). apply Z.pow_le_mono_r; lia. }
  assert (2 ^ sft = A * N) as HAN.
  { unfold A, N. rewrite <- Z.pow_add_r by lia. f_equal. lia. }
  rewrite HAN in Hval.
  assert (A * 8796093022208 = 2 ^ (- ex + 43)) as HT.
  { unfold A. rewrite Z.pow_add_r by lia. reflexivity. }
  assert (0 <= mx) as Hmx.
  { destruct Hx as [[_ ->] | (px & _ & ->)]; lia. }
  assert (forall my ey,
            0 <= my -> ey <= -2 -> ex + -43 <= ey ->
            (my - 1) * 2 ^ (ey - (ex + -43)) <= mx * 8796093022208000 ->
            mx * 8796093022208000 + 1 <= (my + 2) * 2 ^ (ey - (ex + -43)) ->
            Zpos p / 1000 - 1 <= my / 2 ^ (- ey) <= Zpos p / 1000 + 1) as Hfinish.
  { intros my ey Hmy Hey1 Hey2 Hy1 Hy2.
    apply (two_roundings_within_one (Zpos p) q mx my N A
             (2 ^ (ey - (ex + -43))) (2 ^ (- ey))); try assumption; try lia.
    - change 4 with (2 ^ 2). apply Z.pow_le_mono_r; lia.
    - rewrite HT, <- Z.pow_add_r by lia. f_equal. lia. }
  destruct Hx as [[Hx ->] | (px & Hx & ->)]; rewrite Hx.
  - exists 0. split; [destruct s; reflexivity|].
    apply (Hfinish 0 (-2)); lia.
  - cbn [SFmul]. rewrite xorb_false_r.
    assert (Zpos px < 2 ^ (40 + - ex)) as Hpx.
    { assert ((Zpos px - 1) * 1000000 < 2 ^ 58 * A) as H1.
      { apply Z.mul_lt_mono_pos_r with (p := N); [lia|]. nia. }
      assert (Zpos px - 1 < 2 ^ 39 * A) as H2.
      { change (2 ^ 58) with (2 ^ 39 * 524288) in H1. nia. }
      replace (40 + - ex) with (39 + - ex + 1) by lia.
      rewrite !Z.pow_add_r by lia. fold A. change (2 ^ 1) with 2. nia. }
    assert (Zdigits2 (Zpos px) <= 40 + - ex) as Hdx.
    { rewrite Zdigits2_log2 by lia.
      pose proof (proj1 (Z.log2_lt_pow2 (Zpos px) (40 + - ex) ltac:(lia)) Hpx). lia. }
    pose proof (Zdigits2_mul (Zpos px) 8796093022208000 ltac:(lia) ltac:(lia)) as Hdm.
    change (Zdigits2 8796093022208000) with 53 in Hdm.
    rewrite <- Pos2Z.inj_mul in Hdm.
    destruct (binary_round_aux_value s (Zpos (px * 8796093022208000)) (ex + -43) loc_Exact)
      as (my & ey & Hy & Hey & Hy1 & Hy2); [lia | lia | lia |].
    rewrite Pos2Z.inj_mul in Hy1, Hy2.
    assert (ey <= -2) as Hey2 by lia.
    destruct Hy as [[Hy ->] | (py & Hy & ->)]; rewrite Hy.
    + exists 0. split; [destruct s; reflexivity|].
      pose proof (Hfinish 0 ey ltac:(lia) Hey2 ltac:(lia) Hy1 Hy2) as H.
      rewrite Z.div_0_l in H by (apply Z.pow_nonzero; lia). exact H.
    + exists (Zpos py / 2 ^ (- ey)). split.
      * cbn [int_of_float]. do 2 f_equal.
        rewrite <- Z.shiftr_opp_r, Z.shiftr_div_pow2 by lia. reflexivity.
      * apply Hfinish; lia.
Qed.

(** A valid value is less than [2 ** 58] microseconds away from the
    epoch. *)
Lemma valid_epoch_microseconds_58 (dt : datetime) :
  valid dt = true -> - 2 ^ 58 < epoch_microseconds dt < 2 ^ 58.
Proof.
  unfold valid. rewrite !andb_true_iff, !Z.leb_le.
  intros Hv. decompose [and] Hv; clear Hv.
  unfold epoch_microseconds, toordinal.
  assert (0 <= days_before_year (year dt) <= 3651695) as Hy.
  { unfold days_before_year. cbv zeta.
    pose proof (Z.div_mod (year dt - 1) 4 ltac:(lia)).
    pose proof (Z.mod_pos_bound (year dt - 1) 4 ltac:(lia)).
    pose proof (Z.div_mod (year dt - 1) 100 ltac:(lia)).
    pose proof (Z.mod_pos_bound (year dt - 1) 100 ltac:(lia)).
    pose proof (Z.div_mod (year dt - 1) 400 ltac:(lia)).
    pose proof (Z.mod_pos_bound (year dt - 1) 400 ltac:(lia)).
    lia. }
  pose proof (days_before_month_bounds (year dt) (month dt)).
  pose proof (days_in_month_bound (year dt) (month dt)).
  change (2 ^ 58) with 288230376151711744. lia.
Qed.

(** The two roundings and the truncation cost at most one millisecond. *)
Lemma milliseconds_within_one (dt : datetime) (ms : Z) :
  valid dt = true ->
  milliseconds dt = ok ms ->
  Z.abs (ms - Z.quot (epoch_microseconds dt) 1000) <= 1.
Proof.
  intros Hvalid. pose proof (valid_epoch_microseconds_58 dt Hvalid) as Hus.
  unfold milliseconds, epoch_seconds, int_truediv.
  replace (float_of_int 1000) with (S754_finite false 8796093022208000 (-43))
    by (vm_compute; reflexivity).
  change (exact 1000000) with (S754_finite false 1000000 0).
  destruct (epoch_microseconds dt) as [|p|p]; cbn [exact].
  - intros H. injection H as <-. cbn. lia.
  - destruct (scaled_quotient_within_one false p ltac:(lia)) as (k & -> & Hk).
    intros H. injection H as <-. cbn [cond_Zopp].
    rewrite Z.quot_div_nonneg by lia. lia.
  - destruct (scaled_quotient_within_one true p ltac:(lia)) as (k & -> & Hk).
    intros H. injection H as <-. cbn [cond_Zopp].
    change (Z.neg p) with (- Z.pos p).
    rewrite Z.quot_opp_l, Z.quot_div_nonneg by lia. lia.
Qed.

End Accuracy.

Section Precision.

Context {R : Runtime}.

(** X7. [to_ms] is within one millisecond of the exact count: the integer
    returned differs by at most one from the microseconds between the epoch
    and the wall-clock reading of the timestamp, divided by 1000 and
    truncated. *)
Theorem to_ms_within_one_millisecond (s : string) (dt : datetime) (ms : Z) :
  fromisoformat (slice_to s (-1)) = Some dt ->
  to_ms (PStr s) = ok ms ->
  Z.abs (ms - Z.quot (epoch_microseconds dt) 1000) <= 1.
Proof.
  intros Hparse. rewrite to_ms_string, Hparse.
  apply milliseconds_within_one. eapply fromisoformat_valid. exact Hparse.
Qed.

End Precision.

Section Batches.

Context {R : Runtime}.

Local Open Scope result_scope.

(** A record is built from an element exactly when the loop body yields it
    for that element. *)
Lemma built_from_trade_of (element : pyval) (trade : Trade) :
  built_from element trade <-> trade_of element = ok trade.
Proof.
  split; [|apply trade_of_built_from].
  intros (symbol & price & qty & timestamp & Hs & Hp & Hq & Ht & Hvs & Hvp & Hvq & Hms).
  unfold trade_of. rewrite Hs, Hp, Hq, Ht. cbn [rbind ok]. rewrite Hms.
  cbn [rbind ok]. unfold new_Trade. rewrite Hvs, Hvq, Hvp. now destruct trade.
Qed.

(** X8. On a frame that is not a heartbeat, [get_trades] returns a list
    exactly when the frame decodes to a message whose [data] is a collection
    and every element of it yields a record; the list then has one record
    for each element, in the order of the elements: none is skipped,
    repeated or moved. *)
Theorem get_trades_one_record_per_element
  (self : KrakenWebsocketAPI.t) (frame : string) (trades : list Trade) :
  next_frame self frame ->
  contains "heartbeat" frame = false ->
  get_trades self = (ok trades, after_recv self)
  <-> exists message data elements,
        json_loads frame = Some message
        /\ subscript message "data" = ok data
        /\ iterate data = ok elements
        /\ Forall2 built_from elements trades.
Proof.
  intros Hnext Hbeat. rewrite (get_trades_next _ _ Hnext), Hbeat.
  unfold parse_trades. split.
  - intros [= H].
    destruct (json_loads frame) as [message|]; [|discriminate].
    destruct (subscript message "data") as [|data] eqn:Hdata;
      cbn [rbind] in H; [discriminate|].
    destruct (iterate data) as [|elements] eqn:Hiter;
      cbn [rbind] in H; [discriminate|].
    exists message, data, elements.
    split; [reflexivity|]. split; [exact Hdata|]. split; [exact Hiter|].
    apply for_trades_ok in H.
    eapply Forall2_impl; [|exact H]. intros e t. apply built_from_trade_of.
  - intros (message & data & elements & -> & -> & Hiter & Hall).
    cbn [rbind ok]. rewrite Hiter. cbn [rbind ok]. f_equal.
    apply for_trades_ok.
    eapply Forall2_impl; [|exact Hall]. intros e t. apply built_from_trade_of.
Qed.

(** The loop stops at the first element that raises, with its exception. *)
Lemma for_trades_first_failure
  (good : list pyval) (bad : pyval) (rest : list pyval) (acc : list Trade) (e : exn) :
  Forall (fun element => exists trade, trade_of element = ok trade) good ->
  trade_of bad = raise e ->
  for_trades (good ++ bad :: rest)%list acc = raise e.
Proof.
  intros Hgood Hbad. revert acc.
  induction Hgood as [|element good [t Ht] _ IH]; intros acc; cbn [app for_trades].
  - now rewrite Hbad.
  - rewrite Ht. cbn [rbind]. apply IH.
Qed.

(** X9. The exception of a frame is that of its first element that
    raises: the elements before it have yielded records that are dropped,
    and the elements after it are never looked at, well formed or not. *)
Theorem get_trades_first_failure
  (self : KrakenWebsocketAPI.t) (frame : string) (message data : pyval)
  (good : list pyval) (bad : pyval) (rest : list pyval) (e : exn) :
  next_frame self frame ->
  contains "heartbeat" frame = false ->
  json_loads frame = Some message ->
  subscript message "data" = ok data ->
  iterate data = ok (good ++ bad :: rest)%list ->
  Forall (fun element => exists trade, built_from element trade) good ->
  trade_of bad = raise e ->
  get_trades self = (raise e, after_recv self).
Proof.
  intros Hnext Hbeat Hjson Hdata Hiter Hgood Hbad.
  rewrite (get_trades_next _ _ Hnext), Hbeat. f_equal.
  unfold parse_trades. rewrite Hjson, Hdata. cbn [rbind ok].
  rewrite Hiter. cbn [rbind ok].
  apply for_trades_first_failure; [|exact Hbad].
  eapply Forall_impl; [|exact Hgood].
  intros element [t Ht]. exists t. now apply built_from_trade_of.
Qed.

(** X10. An element that is a dict without one of the four fields raises
    [KeyError] for the first one it lacks in the order symbol, price, qty,
    timestamp, before any value is converted or validated. *)
Theorem trade_of_first_missing_key (d : list (string * pyval)) (key : string) :
  first_missing d = Some key ->
  trade_of (PDict d) = raise (KeyError key).
Proof.
  unfold first_missing, required_fields, trade_of, subscript. cbn [find].
  destruct (dict_get d "symbol"); [|now intros [= <-]].
  destruct (dict_get d "price"); [|now intros [= <-]].
  destruct (dict_get d "qty"); [|now intros [= <-]].
  destruct (dict_get d "timestamp"); [|now intros [= <-]].
  discriminate.
Qed.

(** X11. A [data] that is not a list is not refused as such.  An object
    or a string is iterated like a list, over its keys or its characters,
    none of which can be subscripted by a field name: the call raises
    [TypeError], unless the object or string is empty, and then it returns
    the empty list.  Any other value cannot be iterated and raises
    [TypeError]. *)
Theorem get_trades_data_not_a_list
  (self : KrakenWebsocketAPI.t) (frame : string) (message data : pyval) :
  next_frame self frame ->
  contains "heartbeat" frame = false ->
  json_loads frame = Some message ->
  subscript message "data" = ok data ->
  (forall elements, data <> PList elements) ->
  get_trades self
  = (match data with
     | PDict [] | PStr EmptyString => ok []
     | _ => raise TypeError
     end, after_recv self).
Proof.
  intros Hnext Hbeat Hjson Hdata Hlist.
  rewrite (get_trades_next _ _ Hnext), Hbeat. f_equal.
  unfold parse_trades. rewrite Hjson, Hdata. cbn [rbind ok].
  destruct data as [| | | |s|l|d]; try reflexivity.
  - now destruct s.
  - now elim (Hlist l).
  - now destruct d.
Qed.

End Batches.

Section Exceptions.

Context {R : Runtime}.

Local Open Scope result_scope.

(** The exceptions a step can raise. *)
Lemma subscript_raises (v : pyval) (key : string) (e : exn) :
  subscript v key = raise e -> e = KeyError key \/ e = TypeError.
Proof.
  unfold subscript. destruct v; try (intros [= <-]; now right).
  destruct (dict_get d key); intros [= <-]. now left.
Qed.

Lemma to_ms_raises (v : pyval) (e : exn) :
  to_ms v = raise e -> e = TypeError \/ e = ValueError.
Proof.
  destruct v as [| | | |s| |]; try (intros [= <-]; now left).
  destruct (fromisoformat (slice_to s (-1))) as [dt|] eqn:Hparse.
  - destruct (to_ms_string_returns s dt Hparse) as (ms & Hms & _).
    rewrite Hms. discriminate.
  - rewrite to_ms_string, Hparse. intros [= <-]. now right.
Qed.

Lemma trade_of_raises (element : pyval) (e : exn) :
  trade_of element = raise e -> element_exception e.
Proof.
  unfold trade_of, new_Trade, element_exception, required_fields.
  destruct (subscript element "symbol") as [e1|symbol] eqn:E1; cbn [rbind].
  { intros [= <-]. destruct (subscript_raises _ _ _ E1) as [->| ->];
      [left; eexists; split; [|reflexivity]; simpl; tauto | tauto]. }
  destruct (subscript element "price") as [e1|price] eqn:E2; cbn [rbind].
  { intros [= <-]. destruct (subscript_raises _ _ _ E2) as [->| ->];
      [left; eexists; split; [|reflexivity]; simpl; tauto | tauto]. }
  destruct (subscript element "qty") as [e1|qty] eqn:E3; cbn [rbind].
  { intros [= <-]. destruct (subscript_raises _ _ _ E3) as [->| ->];
      [left; eexists; split; [|reflexivity]; simpl; tauto | tauto]. }
  destruct (subscript element "timestamp") as [e1|timestamp] eqn:E4; cbn [rbind].
  { intros [= <-]. destruct (subscript_raises _ _ _ E4) as [->| ->];
      [left; eexists; split; [|reflexivity]; simpl; tauto | tauto]. }
  destruct (to_ms timestamp) as [e1|ms] eqn:E5; cbn [rbind].
  { intros [= <-]. destruct (to_ms_raises _ _ E5) as [->| ->]; tauto. }
  repeat match goal with
         | |- context [match ?validated with Some _ => _ | None => _ end] =>
             destruct validated
         end;
    intros [= <-]; tauto.
Qed.

Lemma for_trades_raises_element (items : list pyval) (acc : list Trade) (e : exn) :
  for_trades items acc = raise e -> element_exception e.
Proof.
  revert acc. induction items as [|item items IH]; intros acc; cbn [for_trades].
  - discriminate.
  - destruct (trade_of item) as [e'|t] eqn:Et; cbn [rbind].
    + intros [= <-]. eapply trade_of_raises. exact Et.
    + apply IH.
Qed.

(** X12. [get_trades] raises the transport's exception exactly when no
    frame is left.  Otherwise the frame is not a heartbeat and the exception
    tells what went wrong with it: [JSONDecodeError] when it does not
    decode; [KeyError] for [data] or for one of the four fields,
    [TypeError], [ValueError] or [ValidationError] when it does.  It never
    raises [OverflowError]. *)
Theorem get_trades_exceptions (self self' : KrakenWebsocketAPI.t) (e : exn) :
  get_trades self = (raise e, self') ->
  e <> OverflowError
  /\ ((WebSocket.inbound (_ws self) = [] /\ e = WebSocketConnectionClosedException)
      \/ exists frame,
           next_frame self frame
           /\ contains "heartbeat" frame = false
           /\ ((json_loads frame = None /\ e = JSONDecodeError)
               \/ (exists message,
                     json_loads frame = Some message
                     /\ (e = KeyError "data" \/ element_exception e)))).
Proof.
  intros Hget.
  assert ((WebSocket.inbound (_ws self) = [] /\ e = WebSocketConnectionClosedException)
          \/ exists frame,
               next_frame self frame
               /\ contains "heartbeat" frame = false
               /\ ((json_loads frame = None /\ e = JSONDecodeError)
                   \/ (exists message,
                         json_loads frame = Some message
                         /\ (e = KeyError "data" \/ element_exception e)))) as Hcases.
  { pose proof (get_trades_connection self) as Hconn.
    destruct (WebSocket.inbound (_ws self)) as [|frame rest] eqn:Hin.
    - left. split; [reflexivity|]. rewrite Hconn in Hget. now injection Hget as <-.
    - right. exists frame.
      assert (next_frame self frame) as Hnext by (unfold next_frame; now rewrite Hin).
      split; [exact Hnext|].
      rewrite (get_trades_next _ _ Hnext) in Hget.
      destruct (contains "heartbeat" frame); [discriminate|].
      split; [reflexivity|]. injection Hget as Hparse _.
      unfold parse_trades in Hparse.
      destruct (json_loads frame) as [message|];
        [right; exists message; split; [reflexivity|]
        |left; split; [reflexivity|now injection Hparse as <-]].
      destruct (subscript message "data") as [e1|data] eqn:Hdata; cbn [rbind] in Hparse.
      { injection Hparse as <-.
        destruct (subscript_raises _ _ _ Hdata) as [->| ->];
          [now left | right; unfold element_exception; tauto]. }
      right.
      destruct (iterate data) as [e1|items] eqn:Hiter; cbn [rbind] in Hparse.
      { injection Hparse as <-.
        destruct data; simpl in Hiter; try discriminate;
          injection Hiter as <-; unfold element_exception; tauto. }
      eapply for_trades_raises_element. exact Hparse. }
  split; [|exact Hcases].
  intros ->.
  destruct Hcases as [[_ H] | (frame & _ & _ & [[_ H] | (message & _ & [H | H])])];
    try discriminate.
  destruct H as [(key & _ & H) | [H | [H | H]]]; discriminate.
Qed.

End Exceptions.

(* ===================================================================== *)
(** * Further properties of the program *)
(* ===================================================================== *)

Section Handshake.

Context {R : Runtime}.

(** X13. The constructor discards the first two frames unread: two
    connections that differ in those two frames only, trades included,
    leave the same client, whose connection holds the frames from the third
    on. *)
Theorem init_discards_two_frames (product_id : string) (frames frames' : list string) :
  (2 <= List.length frames)%nat ->
  (2 <= List.length frames')%nat ->
  skipn 2 frames = skipn 2 frames' ->
  __init__ product_id frames = __init__ product_id frames'
  /\ exists self,
       __init__ product_id frames = ok self
       /\ WebSocket.inbound (_ws self) = skipn 2 frames.
Proof.
  destruct frames as [|a1 [|a2 live]]; cbn [List.length]; try lia.
  destruct frames' as [|b1 [|b2 live']]; cbn [List.length]; try lia.
  cbn [skipn]. intros _ _ <-. split; [reflexivity|].
  eexists. split; reflexivity.
Qed.

(** X14. On a connection that delivers fewer than two frames the
    constructor raises the transport's exception, and [produce_trades] ends
    with it before the loop is entered: nothing is polled, published or
    slept. *)
Theorem produce_trades_needs_handshake
  (kafka_topic product_id : string) (frames : list string) (n : nat) :
  (List.length frames < 2)%nat ->
  __init__ product_id frames = raise WebSocketConnectionClosedException
  /\ produce_trades kafka_topic product_id frames n
     = (raise WebSocketConnectionClosedException, []).
Proof.
  intros Hlen. pose proof (init_needs_two_frames product_id frames Hlen) as Hinit.
  split; [exact Hinit|]. unfold produce_trades. now rewrite Hinit.
Qed.

End Handshake.

Section Turns.

Context {R : Runtime}.

(** The loop in terms of the polls it makes: every batch returned is a
    completed turn, and a poll that raises ends the loop there. *)
Lemma loop_polls (topic : string) (n : nat) (p : process) :
  loop topic n p
  = let '(batches, raised, api') := polls n (kraken_api p) in
    (match raised with
     | None => ok tt
     | Some e => raise e
     end,
     mk_process api'
       (calls p
        ++ flat_map (turn_calls topic) batches
        ++ match raised with
           | None => []
           | Some _ => [Get_trades]
           end)).
Proof.
  revert p. induction n as [|n IH]; intros p; cbn [loop polls].
  - cbn. rewrite app_nil_r. now destruct p.
  - unfold next at 1.
    destruct (get_trades (kraken_api p)) as [[e|batch] api1] eqn:Hpoll.
    + rewrite (iteration_raises _ _ _ _ Hpoll). reflexivity.
    + assert (iteration topic p
              = (ok tt, mk_process api1 (calls p ++ turn_calls topic batch))) as ->.
      { unfold iteration, next at 1, poll. rewrite Hpoll.
        unfold ok at 1. unfold next. rewrite for_each_calls.
        unfold emit, turn_calls. cbn [kraken_api calls].
        now rewrite <- !app_assoc. }
      unfold ok at 1. rewrite IH. cbn [kraken_api calls].
      destruct (polls n api1) as [[batches raised] api2].
      cbn [flat_map]. now rewrite <- !app_assoc.
Qed.

(** X15. The calls of the loop are those of its completed turns, one
    after the other, each a poll, the messages of the batch polled and a
    sleep of one second; if a poll raises, the loop ends with that exception
    right after the poll. *)
Theorem loop_calls (topic : string) (n : nat) (p : process) :
  loop topic n p
  = let '(batches, raised, api') := polls n (kraken_api p) in
    (match raised with
     | None => ok tt
     | Some e => raise e
     end,
     mk_process api'
       (calls p
        ++ flat_map (turn_calls topic) batches
        ++ match raised with
           | None => []
           | Some _ => [Get_trades]
           end)).
Proof. apply loop_polls. Qed.

Lemma produced_app (cs cs' : list call) :
  produced (cs ++ cs') = (produced cs ++ produced cs')%list.
Proof. apply flat_map_app. Qed.

Lemma sleeps_app (cs cs' : list call) : sleeps (cs ++ cs') = (sleeps cs + sleeps cs')%nat.
Proof. unfold sleeps. now rewrite filter_app, length_app. Qed.

Lemma produced_messages (topic : string) (trades : list Trade) :
  produced (map (fun trade =>
                   Produce topic (value_serializer (Trade.model_dump trade))
                           (key_serializer (Trade.product_id trade)))
                trades)
  = map (message topic) trades.
Proof.
  induction trades as [|t trades IH]; [reflexivity|].
  cbn [map]. change (produced (?c :: ?cs)) with (produced [c] ++ produced cs)%list.
  now rewrite IH.
Qed.

Lemma sleeps_messages (topic : string) (trades : list Trade) :
  sleeps (map (fun trade =>
                 Produce topic (value_serializer (Trade.model_dump trade))
                         (key_serializer (Trade.product_id trade)))
              trades)
  = 0%nat.
Proof. induction trades as [|t trades IH]; [reflexivity|exact IH]. Qed.

Lemma produced_turn (topic : string) (trades : list Trade) :
  produced (turn_calls topic trades) = map (message topic) trades.
Proof.
  unfold turn_calls. rewrite !produced_app, produced_messages.
  cbn. now rewrite app_nil_r.
Qed.

Lemma sleeps_turn (topic : string) (trades : list Trade) :
  sleeps (turn_calls topic trades) = 1%nat.
Proof.
  unfold turn_calls. rewrite !sleeps_app, sleeps_messages. reflexivity.
Qed.

Lemma produced_turns (topic : string) (batches : list (list Trade)) :
  produced (flat_map (turn_calls topic) batches) = map (message topic) (List.concat batches).
Proof.
  induction batches as [|b batches IH]; [reflexivity|].
  cbn [flat_map List.concat]. now rewrite produced_app, produced_turn, IH, map_app.
Qed.

Lemma sleeps_turns (topic : string) (batches : list (list Trade)) :
  sleeps (flat_map (turn_calls topic) batches) = List.length batches.
Proof.
  induction batches as [|b batches IH]; [reflexivity|].
  cbn [flat_map List.length]. now rewrite sleeps_app, sleeps_turn, IH.
Qed.

(** X16. Over any number of turns, whether the loop is still running or
    has ended with an exception, the messages published on the topic are
    the trades the polls returned, every one of them once and in the order
    returned, each keyed by its own [product_id]; and the process has
    slept once for each poll that returned. *)
Theorem loop_publishes_every_trade (topic : string) (n : nat) (p : process) :
  let '(batches, _, _) := polls n (kraken_api p) in
  let p' := snd (loop topic n p) in
  produced (calls p') = (produced (calls p) ++ map (message topic) (List.concat batches))%list
  /\ sleeps (calls p') = (sleeps (calls p) + List.length batches)%nat.
Proof.
  rewrite loop_polls.
  destruct (polls n (kraken_api p)) as [[batches raised] api']. cbn [snd calls].
  rewrite !produced_app, !sleeps_app, produced_turns, sleeps_turns.
  destruct raised; cbn; rewrite ?app_nil_r, ?Nat.add_0_r; split; reflexivity.
Qed.

Lemma polls_raised (n m : nat) (api : KrakenWebsocketAPI.t) :
  forall batches e api',
    polls n api = (batches, Some e, api') ->
    polls (n + m) api = (batches, Some e, api').
Proof.
  revert api. induction n as [|n IH]; intros api batches e api'; cbn [polls Nat.add].
  - discriminate.
  - destruct (get_trades api) as [[e1|batch] api1]; [trivial|].
    destruct (polls n api1) as [[bs raised] api2] eqn:Hn.
    intros [= <- -> <-]. now rewrite (IH _ _ _ _ Hn).
Qed.

(** X17. An exception ends the loop for good: once a poll has raised,
    running the loop for more turns polls, publishes and sleeps nothing
    more, and the frames behind the one that raised stay unread. *)
Theorem loop_ends_at_first_exception
  (topic : string) (n m : nat) (p : process) (e : exn) (p' : process) :
  loop topic n p = (raise e, p') ->
  loop topic (n + m) p = (raise e, p').
Proof.
  rewrite !loop_polls.
  destruct (polls n (kraken_api p)) as [[batches raised] api'] eqn:Hn.
  destruct raised as [e'|]; [|discriminate].
  rewrite (polls_raised n m _ _ _ _ Hn). trivial.
Qed.

End Turns.

Section Program.

Context {R : Runtime}.

(** X18. [produce_trades] on a connection with at least two frames: the
    constructor takes the first two, and the run is the loop on the client
    it leaves, whose polls read the frames from the third on. *)
Theorem produce_trades_run_from_third_frame
  (kafka_topic product_id : string) (ack1 ack2 : string) (live : list string)
  (n : nat) :
  let api := mk product_id
               (WebSocket.mk URL live [json_dumps (subscription product_id)]) in
  produce_trades kafka_topic product_id (ack1 :: ack2 :: live) n
  = let '(batches, raised, _) := polls n api in
    (match raised with
     | None => ok tt
     | Some e => raise e
     end,
     (flat_map (turn_calls kafka_topic) batches
      ++ match raised with
         | None => []
         | Some _ => [Get_trades]
         end)%list).
Proof.
  intros api. unfold produce_trades.
  change (__init__ product_id (ack1 :: ack2 :: live)) with (ok api).
  unfold ok at 1. rewrite loop_polls. cbn [kraken_api calls].
  now destruct (polls n api) as [[batches raised] api'].
Qed.

(** X19. The program on a connection that delivers two opening frames, a
    heartbeat and a frame of well-formed trades publishes, in its first two
    turns, one message for each trade of the frame, in order, and nothing
    for the heartbeat or for the opening frames, and sleeps after each
    poll. *)
Theorem produce_trades_heartbeat_then_trades
  (kafka_topic product_id : string) (ack1 ack2 beat frame : string)
  (later : list string) (message : pyval) (elements : list pyval)
  (trades : list Trade) :
  contains "heartbeat" beat = true ->
  contains "heartbeat" frame = false ->
  json_loads frame = Some message ->
  subscript message "data" = ok (PList elements) ->
  Forall2 copies elements trades ->
  produce_trades kafka_topic product_id
    (ack1 :: ack2 :: beat :: frame :: later) 2
  = (ok tt, (turn_calls kafka_topic [] ++ turn_calls kafka_topic trades)%list).
Proof.
  intros Hbeat Hframe Hjson Hdata Hcopies.
  unfold produce_trades.
  set (api0 := mk product_id
                 (WebSocket.mk URL (beat :: frame :: later)
                               [json_dumps (subscription product_id)])).
  change (__init__ product_id (ack1 :: ack2 :: beat :: frame :: later)) with (ok api0).
  unfold ok at 1. rewrite loop_polls. cbn [kraken_api calls polls].
  rewrite (get_trades_next api0 beat eq_refl), Hbeat.
  rewrite (get_trades_next (after_recv api0) frame eq_refl), Hframe.
  assert (parse_trades frame = ok trades) as ->.
  { unfold parse_trades. rewrite Hjson, Hdata. cbn [rbind ok iterate].
    apply for_trades_ok.
    eapply Forall2_impl; [|exact Hcopies]. apply trade_of_copies. }
  cbn. now rewrite !app_nil_r.
Qed.

End Program.
(* ===================================================================== *)
(** * The properties on the sample traffic *)
(* ===================================================================== *)

Section Samples.

Import Examples.

(** The heartbeat frame of the venue. *)
Lemma get_trades_heartbeat_example :
  get_trades (R := Reference.runtime) (client [heartbeat_frame; trade_frame])
  = (ok [], client [trade_frame]).
Proof.
  exact (get_trades_heartbeat (R := Reference.runtime)
           (client [heartbeat_frame; trade_frame]) heartbeat_frame
           (wire "{'channel':'") (wire "'}") eq_refl eq_refl).
Defined.

(** The sample frame of two trades. *)
Lemma get_trades_data_frame_example :
  exists result,
    get_trades (R := Reference.runtime) (client [trade_frame; heartbeat_frame])
    = (ok result, client [heartbeat_frame])
    /\ List.length result = 2%nat
    /\ Forall2 (copies (R := Reference.runtime)) trade_elements result.
Proof.
  apply (get_trades_data_frame (R := Reference.runtime)
           (client [trade_frame; heartbeat_frame]) trade_frame
           (decoded trade_frame) trade_elements).
  - reflexivity.
  - vm_compute; reflexivity.
  - vm_compute; reflexivity.
  - vm_compute; reflexivity.
  - apply Forall_cons; [|apply Forall_cons; [|apply Forall_nil]].
    + exists "ETH/USD"%string, f2500_5, f0_25,
        "2024-01-01T00:00:00.000000"%string, "Z"%char,
        (mk_datetime 2024 1 1 0 0 0 0 None).
      repeat split; vm_compute; reflexivity.
    + exists "ETH/USD"%string, f2501, f1,
        "2024-01-01T00:00:01.250000"%string, "Z"%char,
        (mk_datetime 2024 1 1 0 0 1 250000 None).
      repeat split; vm_compute; reflexivity.
Defined.

(** The records of the sample frame, as Python prints them. *)
Example get_trades_trade_frame :
  get_trades (R := Reference.runtime) (client [trade_frame])
  = (ok trades, client []).
Proof. vm_compute. reflexivity. Qed.

(** The sample frame whose second element has no [qty]: the first element
    is well formed and yields nothing. *)
Lemma get_trades_malformed_frame_example :
  exists e,
    get_trades (R := Reference.runtime) (client [broken_frame; trade_frame])
    = (raise e, client [trade_frame])
    /\ ProtocolViolation e = true
    /\ forall topic done n,
         loop (R := Reference.runtime) topic (S n)
              (mk_process (client [broken_frame; trade_frame]) done)
         = (raise e, mk_process (client [trade_frame]) (done ++ [Get_trades])).
Proof.
  apply (get_trades_malformed_frame (R := Reference.runtime)
           (client [broken_frame; trade_frame]) broken_frame).
  - reflexivity.
  - vm_compute; reflexivity.
  - apply (element_missing_field (R := Reference.runtime) broken_frame
             (decoded broken_frame) (PList broken_elements) broken_elements);
      [vm_compute; reflexivity ..|].
    apply Exists_cons_tl, Exists_cons_hd.
    exists "qty"%string. split; [simpl; tauto|].
    intros v H. vm_compute in H. discriminate.
Defined.

(** The exception of the sample frame is the missing key's. *)
Example get_trades_broken_frame :
  get_trades (R := Reference.runtime) (client [broken_frame; trade_frame])
  = (raise (KeyError "qty"), client [trade_frame]).
Proof. vm_compute. reflexivity. Qed.

(** One turn on the sample frame of two trades. *)
Lemma iteration_calls_example :
  let p' :=
    mk_process (client [])
      ([] ++ [Get_trades]
       ++ map (fun trade =>
                 Produce "trades"
                   (value_serializer (Runtime := Reference.runtime)
                      (Trade.model_dump trade))
                   (key_serializer (Runtime := Reference.runtime)
                      (Trade.product_id trade)))
              trades
       ++ [Sleep 1]) in
  iteration (R := Reference.runtime) "trades" (mk_process (client [trade_frame]) [])
  = (ok tt, p')
  /\ forall n,
       loop (R := Reference.runtime) "trades" (S n)
            (mk_process (client [trade_frame]) [])
       = loop (R := Reference.runtime) "trades" n p'.
Proof.
  apply (iteration_calls (R := Reference.runtime) "trades"
           (mk_process (client [trade_frame]) []) trades (client [])).
  vm_compute. reflexivity.
Defined.

(** The float product can fall short of the exact count: one second and
    one millisecond convert to 1000. *)
Example to_ms_float_product :
  to_ms (R := Reference.runtime) (PStr "1970-01-01T00:00:01.001000Z") = ok 1000.
Proof. vm_compute. reflexivity. Qed.

(** A turn on a heartbeat publishes nothing and still sleeps. *)
Example iteration_heartbeat :
  iteration (R := Reference.runtime) "trades" (mk_process (client [heartbeat_frame]) [])
  = (ok tt, mk_process (client []) [Get_trades; Sleep 1]).
Proof. vm_compute. reflexivity. Qed.

(** The whole program on two acknowledgements, a heartbeat and the sample
    frame: two messages, keyed by the symbol, none for the heartbeat. *)
Example produce_trades_run :
  produce_trades (R := Reference.runtime) "trades" "ETH/USD"
    [status_frame; ack_frame; heartbeat_frame; trade_frame] 2
  = (ok tt,
     [Get_trades; Sleep 1; Get_trades;
      Produce "trades"
        (wire "{'product_id': 'ETH/USD', 'quantity': 0.25, 'price': 2500.5, 'timestamp_ms': 1704067200000}")
        "ETH/USD";
      Produce "trades"
        (wire "{'product_id': 'ETH/USD', 'quantity': 1.0, 'price': 2501.0, 'timestamp_ms': 1704067201250}")
        "ETH/USD";
      Sleep 1]).
Proof. vm_compute. reflexivity. Qed.

(** C6, as stated, fails: the sample frame with an empty symbol, a negative
    price, a zero quantity and a timestamp before 1970 yields a record, and
    the record is out of every range. *)
Lemma trade_out_of_range :
  get_trades (R := Reference.runtime) (client [odd_frame])
    = (ok [odd_trade], client [])
  /\ Trade.product_id odd_trade = ""%string
  /\ is_positive (Trade.price odd_trade) = false
  /\ is_positive (Trade.quantity odd_trade) = false
  /\ Trade.timestamp_ms odd_trade < 0
  /\ ~ (forall (R : Runtime) self self' trades,
          get_trades self = (ok trades, self') ->
          Forall (fun trade => in_range trade = true) trades).
Proof.
  assert (get_trades (R := Reference.runtime) (client [odd_frame])
          = (ok [odd_trade], client [])) as Hget
    by (vm_compute; reflexivity).
  split; [exact Hget|].
  repeat (split; [reflexivity|]).
  intros H. specialize (H Reference.runtime _ _ _ Hget).
  inversion H as [|? ? Hodd _]. discriminate Hodd.
Qed.

(** The records of the sample frame. *)
Lemma get_trades_records_example :
  exists frame,
    next_frame (client [trade_frame]) frame
    /\ client [] = after_recv (client [trade_frame])
    /\ ((contains "heartbeat" frame = true /\ trades = [])
        \/ (contains "heartbeat" frame = false
            /\ exists message data elements,
                 json_loads (Runtime := Reference.runtime) frame = Some message
                 /\ subscript message "data" = ok data
                 /\ iterate data = ok elements
                 /\ Forall2 (fun element trade =>
                               built_from (R := Reference.runtime) element trade
                               /\ (element_in_range (R := Reference.runtime) element ->
                                   in_range trade = true))
                            elements trades)).
Proof.
  apply (get_trades_records (R := Reference.runtime)
           (client [trade_frame]) (client []) trades).
  vm_compute. reflexivity.
Defined.

(** They are within the ranges, as their elements are. *)
Example sample_trades_in_range :
  Forall (element_in_range (R := Reference.runtime)) trade_elements
  /\ forallb in_range trades = true.
Proof.
  split; [|reflexivity].
  apply Forall_cons; [|apply Forall_cons; [|apply Forall_nil]].
  - exists "ETH/USD"%string, f2500_5, f0_25,
      "2024-01-01T00:00:00.000000Z"%string, (mk_datetime 2024 1 1 0 0 0 0 None).
    repeat split; try (vm_compute; reflexivity); discriminate.
  - exists "ETH/USD"%string, f2501, f1,
      "2024-01-01T00:00:01.250000Z"%string, (mk_datetime 2024 1 1 0 0 1 250000 None).
    repeat split; try (vm_compute; reflexivity); discriminate.
Qed.

(** A client through a heartbeat, a malformed frame and a frame of trades. *)
Lemma product_id_fixed_example :
  KrakenWebsocketAPI.product_id
    (lifetime (R := Reference.runtime)
       (subscribed [heartbeat_frame; broken_frame; trade_frame])
       [Call_get_trades; Call_is_done; Call_get_trades;
        Call_to_ms (PStr "2024-01-01T00:00:00.000000Z"); Call_get_trades;
        Call_get_trades])
  = "ETH/USD"%string.
Proof.
  apply (product_id_fixed (R := Reference.runtime) "ETH/USD"
           [status_frame; ack_frame; heartbeat_frame; broken_frame; trade_frame]).
  vm_compute. reflexivity.
Defined.

(** The constructor on the sample traffic. *)
Example init_run :
  __init__ (R := Reference.runtime) "ETH/USD"
    [status_frame; ack_frame; heartbeat_frame; trade_frame]
  = ok (subscribed [heartbeat_frame; trade_frame])
  /\ WebSocket.sent (_ws (subscribed []))
     = [wire "{'method': 'subscribe', 'params': {'channel': 'trade', 'symbol': ['ETH/USD'], 'snapshot': false}}"].
Proof. split; vm_compute; reflexivity. Qed.

End Samples.

(* ===================================================================== *)
(** * The further properties on the sample traffic *)
(* ===================================================================== *)

Section FurtherSamples.

Import Examples.

(** With no frame left, and on the sample frame without [qty]. *)
Lemma get_trades_takes_one_frame_example :
  get_trades (R := Reference.runtime) (client [])
  = (raise WebSocketConnectionClosedException, client [])
  /\ snd (get_trades (R := Reference.runtime) (client [broken_frame; trade_frame]))
     = client [trade_frame].
Proof.
  split.
  - exact (proj1 (get_trades_takes_one_frame (R := Reference.runtime) (client []))
             eq_refl).
  - exact (proj2 (get_trades_takes_one_frame (R := Reference.runtime)
                    (client [broken_frame; trade_frame]))
             broken_frame [trade_frame] eq_refl).
Defined.

(** Midnight at five hours east of Greenwich converts like midnight UTC. *)
Lemma to_ms_drops_offset_example :
  to_ms (R := Reference.runtime) (PStr "2024-01-01T00:00:00+05:00Z")
  = to_ms (R := Reference.runtime) (PStr "2024-01-01T00:00:00Z").
Proof.
  apply (to_ms_drops_offset (R := Reference.runtime)
           "2024-01-01T00:00:00+05:00Z" "2024-01-01T00:00:00Z"
           (mk_datetime 2024 1 1 0 0 0 0 (Some 18000000000))
           (mk_datetime 2024 1 1 0 0 0 0 None)).
  - vm_compute; reflexivity.
  - vm_compute; reflexivity.
  - reflexivity.
Defined.

(** One second before the epoch. *)
Lemma to_ms_sign_example :
  (0 <= epoch_microseconds (mk_datetime 1969 12 31 23 59 59 0 None) -> 0 <= -1000)
  /\ (epoch_microseconds (mk_datetime 1969 12 31 23 59 59 0 None) <= 0 -> -1000 <= 0).
Proof.
  apply (to_ms_sign (R := Reference.runtime) "1969-12-31T23:59:59.000000Z"
           (mk_datetime 1969 12 31 23 59 59 0 None) (-1000)).
  - vm_compute; reflexivity.
  - vm_compute; reflexivity.
Defined.

(** The bound is met: one second and one millisecond after the epoch the
    exact count is 1001 and the result is 1000. *)
Lemma to_ms_within_one_millisecond_example :
  Z.abs (1000 - Z.quot (epoch_microseconds (mk_datetime 1970 1 1 0 0 1 1000 None)) 1000)
  <= 1.
Proof.
  apply (to_ms_within_one_millisecond (R := Reference.runtime)
           "1970-01-01T00:00:01.001000Z"
           (mk_datetime 1970 1 1 0 0 1 1000 None) 1000).
  - vm_compute; reflexivity.
  - vm_compute; reflexivity.
Defined.

(** The sample frame of two trades, read back from the list returned. *)
Lemma get_trades_one_record_per_element_example :
  exists message data elements,
    json_loads (Runtime := Reference.runtime) trade_frame = Some message
    /\ subscript message "data" = ok data
    /\ iterate data = ok elements
    /\ Forall2 (built_from (R := Reference.runtime)) elements trades.
Proof.
  apply (get_trades_one_record_per_element (R := Reference.runtime)
           (client [trade_frame]) trade_frame trades).
  - reflexivity.
  - vm_compute; reflexivity.
  - vm_compute; reflexivity.
Defined.

(** The sample frame whose second element has no [qty]. *)
Lemma get_trades_first_failure_example :
  get_trades (R := Reference.runtime) (client [broken_frame; trade_frame])
  = (raise (KeyError "qty"), after_recv (client [broken_frame; trade_frame])).
Proof.
  apply (get_trades_first_failure (R := Reference.runtime)
           (client [broken_frame; trade_frame]) broken_frame
           (decoded broken_frame) (PList broken_elements)
           [nth 0 broken_elements PNone] (nth 1 broken_elements PNone) []).
  - reflexivity.
  - vm_compute; reflexivity.
  - vm_compute; reflexivity.
  - vm_compute; reflexivity.
  - vm_compute; reflexivity.
  - apply Forall_cons; [|apply Forall_nil].
    exists (Trade.Trade "ETH/USD" f0_25 f2500_5 1704067200000).
    apply trade_of_built_from. vm_compute; reflexivity.
  - vm_compute; reflexivity.
Defined.

(** An element with neither [price] nor [qty]: the key reported is
    [price]. *)
Lemma trade_of_first_missing_key_example :
  trade_of (R := Reference.runtime)
    (PDict [("symbol", PStr "ETH/USD");
            ("timestamp", PStr "2024-01-01T00:00:00.000000Z")])
  = raise (KeyError "price").
Proof.
  apply (trade_of_first_missing_key (R := Reference.runtime)
           [("symbol", PStr "ETH/USD");
            ("timestamp", PStr "2024-01-01T00:00:00.000000Z")]
           "price").
  vm_compute; reflexivity.
Defined.

(** A frame whose [data] is an object with one key. *)
Lemma get_trades_data_not_a_list_example :
  get_trades (R := Reference.runtime) (client [wire "{'data':{'a':1}}"; trade_frame])
  = (raise TypeError, client [trade_frame]).
Proof.
  apply (get_trades_data_not_a_list (R := Reference.runtime)
           (client [wire "{'data':{'a':1}}"; trade_frame])
           (wire "{'data':{'a':1}}")
           (PDict [("data", PDict [("a", PInt 1)])])
           (PDict [("a", PInt 1)])).
  - reflexivity.
  - vm_compute; reflexivity.
  - vm_compute; reflexivity.
  - vm_compute; reflexivity.
  - intros elements H. discriminate H.
Defined.

(** The exception of the sample frame without [qty]. *)
Lemma get_trades_exceptions_example :
  KeyError "qty" <> OverflowError
  /\ ((WebSocket.inbound (_ws (client [broken_frame; trade_frame])) = []
       /\ KeyError "qty" = WebSocketConnectionClosedException)
      \/ exists frame,
           next_frame (client [broken_frame; trade_frame]) frame
           /\ contains "heartbeat" frame = false
           /\ ((json_loads (Runtime := Reference.runtime) frame = None
                /\ KeyError "qty" = JSONDecodeError)
               \/ (exists message,
                     json_loads (Runtime := Reference.runtime) frame = Some message
                     /\ (KeyError "qty" = KeyError "data"
                         \/ element_exception (KeyError "qty"))))).
Proof.
  apply (get_trades_exceptions (R := Reference.runtime)
           (client [broken_frame; trade_frame]) (client [trade_frame])
           (KeyError "qty")).
  vm_compute; reflexivity.
Defined.

(** Two connections that differ in their opening frames only. *)
Lemma init_discards_two_frames_example :
  __init__ (R := Reference.runtime) "ETH/USD" [status_frame; ack_frame; heartbeat_frame]
  = __init__ (R := Reference.runtime) "ETH/USD" [trade_frame; broken_frame; heartbeat_frame]
  /\ exists self,
       __init__ (R := Reference.runtime) "ETH/USD"
         [status_frame; ack_frame; heartbeat_frame]
       = ok self
       /\ WebSocket.inbound (_ws self)
          = skipn 2 [status_frame; ack_frame; heartbeat_frame].
Proof.
  apply (init_discards_two_frames (R := Reference.runtime) "ETH/USD"
           [status_frame; ack_frame; heartbeat_frame]
           [trade_frame; broken_frame; heartbeat_frame]).
  - simpl; lia.
  - simpl; lia.
  - reflexivity.
Defined.

(** A connection that closes after the status frame. *)
Lemma produce_trades_needs_handshake_example :
  __init__ (R := Reference.runtime) "ETH/USD" [status_frame]
  = raise WebSocketConnectionClosedException
  /\ produce_trades (R := Reference.runtime) "trades" "ETH/USD" [status_frame] 5
     = (raise WebSocketConnectionClosedException, []).
Proof.
  apply (produce_trades_needs_handshake (R := Reference.runtime)
           "trades" "ETH/USD" [status_frame] 5).
  simpl; lia.
Defined.

(** A heartbeat, the frame without [qty], and a frame of trades that is
    never read. *)
Lemma loop_ends_at_first_exception_example :
  loop (R := Reference.runtime) "trades" (2 + 3)
       (mk_process (client [heartbeat_frame; broken_frame; trade_frame]) [])
  = (raise (KeyError "qty"),
     mk_process (client [trade_frame]) [Get_trades; Sleep 1; Get_trades]).
Proof.
  apply (loop_ends_at_first_exception (R := Reference.runtime) "trades" 2 3
           (mk_process (client [heartbeat_frame; broken_frame; trade_frame]) [])).
  vm_compute; reflexivity.
Defined.

(** The program on the sample traffic. *)
Lemma produce_trades_heartbeat_then_trades_example :
  produce_trades (R := Reference.runtime) "trades" "ETH/USD"
    [status_frame; ack_frame; heartbeat_frame; trade_frame] 2
  = (ok tt,
     (turn_calls (R := Reference.runtime) "trades" []
      ++ turn_calls (R := Reference.runtime) "trades" trades)%list).
Proof.
  apply (produce_trades_heartbeat_then_trades (R := Reference.runtime)
           "trades" "ETH/USD" status_frame ack_frame heartbeat_frame trade_frame []
           (decoded trade_frame) trade_elements trades).
  - vm_compute; reflexivity.
  - vm_compute; reflexivity.
  - vm_compute; reflexivity.
  - vm_compute; reflexivity.
  - apply Forall2_cons; [|apply Forall2_cons; [|apply Forall2_nil]].
    + split; [vm_compute; reflexivity|].
      split; [vm_compute; reflexivity|].
      split; [vm_compute; reflexivity|].
      exists "2024-01-01T00:00:00.000000Z"%string.
      split; vm_compute; reflexivity.
    + split; [vm_compute; reflexivity|].
      split; [vm_compute; reflexivity|].
      split; [vm_compute; reflexivity|].
      exists "2024-01-01T00:00:01.250000Z"%string.
      split; vm_compute; reflexivity.
Defined.

(** The polls of a client on a heartbeat and the sample frame: an empty
    batch, the two trades, and the transport's exception. *)
Example polls_run :
  polls (R := Reference.runtime) 3 (client [heartbeat_frame; trade_frame])
  = ([[]; trades], Some WebSocketConnectionClosedException, client []).
Proof. vm_compute. reflexivity. Qed.

End FurtherSamples.
